(** * Content fetchers of the NextWP blog front end

    A shallow embedding of the data-fetching helpers of
    [src/app/page.tsx] (listing page) and [src/app/blog/page.tsx]
    (detail page, in its static-generation and its diagnostic form),
    together with the fragment of JavaScript they rely on: JSON values,
    truthiness, property reads that throw on [null]/[undefined],
    optional chaining, [try]/[catch] and the console. *)

From Stdlib Require Import String Ascii List Bool Arith Lia SpecFloat.
Import ListNotations.
Set Warnings "-register-all".
Local Open Scope string_scope.
Local Open Scope list_scope.

(** ** JavaScript values *)

(** What [res.json()] can deliver, plus [undefined], which only arises
    from reading an absent property.  An object keeps its properties in
    insertion order, one binding per key. *)
Inductive value : Type :=
| VUndefined
| VNull
| VBool (b : bool)
| VNum (x : spec_float)
| VStr (s : string)
| VArr (items : list value)
| VObj (props : list (string * value)).

(** Errors that reach a [catch] clause; each carries its [message]. *)
Inductive exn : Type :=
| TypeError (msg : string)
| SyntaxError (msg : string).

Definition message (e : exn) : string :=
  match e with
  | TypeError m => m
  | SyntaxError m => m
  end.

(** [ToBoolean]. *)
Definition truthy (v : value) : bool :=
  match v with
  | VUndefined | VNull => false
  | VBool b => b
  | VNum (S754_zero _) | VNum S754_nan => false
  | VNum _ => true
  | VStr s => negb (s =? EmptyString)
  | VArr _ | VObj _ => true
  end.

Definition nullish (v : value) : bool :=
  match v with
  | VUndefined | VNull => true
  | _ => false
  end.

(** Own property of an object literal; [undefined] when absent. *)
Fixpoint own (props : list (string * value)) (k : string) : value :=
  match props with
  | [] => VUndefined
  | (k', v) :: rest => if k' =? k then v else own rest k
  end.

Definition type_name (v : value) : string :=
  match v with
  | VNull => "null"
  | _ => "undefined"
  end.

Definition cannot_read (v : value) (k : string) : exn :=
  TypeError ("Cannot read properties of " ++ type_name v
             ++ " (reading '" ++ k ++ "')").

Definition not_a_function (path : string) : exn :=
  TypeError (path ++ " is not a function").

(** The double-quote character of the template literals. *)
Definition dq : string := String (ascii_of_nat 34) EmptyString.

(** ** The console and the effect monad *)

Inductive level : Type := LogLevel | WarnLevel | ErrorLevel.

Inductive console_arg : Type :=
| Text (s : string)
| Dump (v : value)
| Caught (e : exn).

Definition console : Type := list (level * list console_arg).

Inductive completion (A : Type) : Type :=
| Normal (a : A)
| Abrupt (e : exn).
Arguments Normal {A} a.
Arguments Abrupt {A} e.

(** A computation reads the console written so far and hands back how it
    completed together with the console it leaves behind. *)
Definition Eff (A : Type) : Type := console -> completion A * console.

Definition ret {A} (a : A) : Eff A := fun c => (Normal a, c).

Definition throw {A} (e : exn) : Eff A := fun c => (Abrupt e, c).

Definition bind {A B} (m : Eff A) (k : A -> Eff B) : Eff B :=
  fun c =>
    match m c with
    | (Normal a, c') => k a c'
    | (Abrupt e, c') => (Abrupt e, c')
    end.

Definition try_catch {A} (body : Eff A) (handler : exn -> Eff A) : Eff A :=
  fun c =>
    match body c with
    | (Normal a, c') => (Normal a, c')
    | (Abrupt e, c') => handler e c'
    end.

Definition emit (l : level) (args : list console_arg) : Eff unit :=
  fun c => (Normal tt, c ++ [(l, args)]).

Declare Scope eff_scope.
Delimit Scope eff_scope with eff.
Notation "x <- m ;; k" := (bind m (fun x => k))
  (at level 100, m at next level, right associativity) : eff_scope.
Notation "m ;;; k" := (bind m (fun _ => k))
  (at level 100, right associativity) : eff_scope.
Notation "'try' b 'catch' h" := (try_catch b h)
  (at level 100, b at level 200, h at level 200) : eff_scope.
Local Open Scope eff_scope.

Definition console_log := emit LogLevel.
Definition console_warn := emit WarnLevel.
Definition console_error := emit ErrorLevel.

(** [v.k] for the property names the program reads ([errors], [data],
    [posts], [post], [nodes], [slug]): none of them lives on a built-in
    prototype, so the read is an own-property lookup on objects and
    [undefined] on arrays and primitives; on [null] and [undefined] the
    engine throws. *)
Definition get (v : value) (k : string) : Eff value :=
  match v with
  | VUndefined | VNull => throw (cannot_read v k)
  | VObj props => ret (own props k)
  | _ => ret VUndefined
  end.

(** [v?.k]: never throws. *)
Definition opt_get (v : value) (k : string) : value :=
  match v with
  | VObj props => own props k
  | _ => VUndefined
  end.

(** ** Requests *)

(** GraphQL documents, kept as syntax trees of the template literals. *)
Inductive arg : Type :=
| AInt (n : nat)
| AVar (name : string)
| AEnum (name : string).

Inductive selection : Type :=
| Field (name : string) (args : list (string * arg)) (sub : list selection).

Record document : Type := {
  operation : string;
  params : list (string * string);
  root : selection
}.

Inductive cache_policy : Type :=
| FrameworkDefault
| Revalidate (seconds : nat)
| NoStore.

Record request : Type := {
  url : string;
  method : string;
  headers : list (string * string);
  query : document;
  variables : list (string * value);
  cache : cache_policy
}.

(** What one round trip can come to: the transport fails and [fetch]
    rejects; a response arrives whose body is not JSON and [res.json()]
    rejects; or the body parses. *)
Inductive outcome : Type :=
| TransportFailure (msg : string)
| Unparsable (msg : string)
| Parsed (json : value).

Inductive response : Type :=
| GoodBody (json : value)
| BadBody (msg : string).

Definition fetch (net : request -> outcome) (req : request) : Eff response :=
  match net req with
  | TransportFailure m => throw (TypeError m)
  | Unparsable m => ret (BadBody m)
  | Parsed j => ret (GoodBody j)
  end.

Definition res_json (res : response) : Eff value :=
  match res with
  | GoodBody j => ret j
  | BadBody m => throw (SyntaxError m)
  end.

Definition WORDPRESS_GRAPHQL_ENDPOINT : string :=
  "https://dev-dp-wp-ap.pantheonsite.io/wp/graphql".

Definition leaf (name : string) : selection := Field name [] [].

(** ** src/app/page.tsx *)
Module Listing.

Definition GET_POSTS_QUERY : document :=
  {| operation := "GetPosts";
     params := [];
     root :=
       Field "posts" [("first", AInt 12)]
         [Field "nodes" []
            [leaf "id"; leaf "slug"; leaf "title"; leaf "excerpt"; leaf "date";
             Field "author" [] [Field "node" [] [leaf "name"]];
             Field "featuredImage" [] [Field "node" [] [leaf "sourceUrl"]];
             Field "categories" [] [Field "nodes" [] [leaf "name"; leaf "slug"]]]] |}.

Definition posts_request : request :=
  {| url := WORDPRESS_GRAPHQL_ENDPOINT;
     method := "POST";
     headers := [("Content-Type", "application/json")];
     query := GET_POSTS_QUERY;
     variables := [];
     cache := Revalidate 60 |}.

Definition getPosts (net : request -> outcome) : Eff value :=
  try
    (res <- fetch net posts_request ;;
     json <- res_json res ;;
     errors <- get json "errors" ;;
     if truthy errors then
       (console_error [Text "GraphQL Errors:"; Dump errors] ;;;
        ret (VArr []))
     else
       (data <- get json "data" ;;
        posts <- get data "posts" ;;
        get posts "nodes"))
  catch
    (fun error =>
       console_error [Text "Fetch Error:"; Caught error] ;;;
       ret (VArr [])).

End Listing.

(** ** src/app/blog/page.tsx, static-generation detail page *)
Module Detail.

Definition GET_POST_SLUGS_QUERY : document :=
  {| operation := "GetPostSlugs";
     params := [];
     root := Field "posts" [("first", AInt 100)] [Field "nodes" [] [leaf "slug"]] |}.

Definition GET_SINGLE_POST_QUERY : document :=
  {| operation := "GetPost";
     params := [("slug", "ID!")];
     root :=
       Field "post" [("id", AVar "slug"); ("idType", AEnum "SLUG")]
         [leaf "id"; leaf "title"; leaf "content"; leaf "date"; leaf "excerpt";
          Field "author" [] [Field "node" [] [leaf "name"]];
          Field "featuredImage" [] [Field "node" [] [leaf "sourceUrl"]];
          Field "categories" [] [Field "nodes" [] [leaf "name"]]] |}.

Definition slugs_request : request :=
  {| url := WORDPRESS_GRAPHQL_ENDPOINT;
     method := "POST";
     headers := [("Content-Type", "application/json")];
     query := GET_POST_SLUGS_QUERY;
     variables := [];
     cache := FrameworkDefault |}.

Definition post_request (slug : string) : request :=
  {| url := WORDPRESS_GRAPHQL_ENDPOINT;
     method := "POST";
     headers := [("Content-Type", "application/json")];
     query := GET_SINGLE_POST_QUERY;
     variables := [("slug", VStr slug)];
     cache := Revalidate 60 |}.

(** [xs.map(f)], the callback run on the elements from left to right. *)
Fixpoint map_eff (f : value -> Eff value) (xs : list value) : Eff (list value) :=
  match xs with
  | [] => ret []
  | x :: rest =>
      y <- f x ;;
      ys <- map_eff f rest ;;
      ret (y :: ys)
  end.

(** [v.map(f)] where [v] came out of JSON: only an array has a [map]
    method; anything else holds no function under that name. *)
Definition call_map (path : string) (v : value) (f : value -> Eff value)
  : Eff value :=
  match v with
  | VArr xs => ys <- map_eff f xs ;; ret (VArr ys)
  | VUndefined | VNull => throw (cannot_read v "map")
  | _ => throw (not_a_function path)
  end.

Definition slug_param (post : value) : Eff value :=
  slug <- get post "slug" ;;
  ret (VObj [("slug", slug)]).

Definition generateStaticParams (net : request -> outcome) : Eff value :=
  try
    (res <- fetch net slugs_request ;;
     json <- res_json res ;;
     data <- get json "data" ;;
     if negb (truthy (opt_get (opt_get data "posts") "nodes")) then
       (console_warn [Text "[NextWP] No posts found during static generation."] ;;;
        ret (VArr []))
     else
       (data <- get json "data" ;;
        posts <- get data "posts" ;;
        nodes <- get posts "nodes" ;;
        call_map "json.data.posts.nodes.map" nodes slug_param))
  catch
    (fun error =>
       console_error [Text "[NextWP] Error fetching slugs for SSG:"; Caught error] ;;;
       ret (VArr [])).

Definition getPost (net : request -> outcome) (slug : string) : Eff value :=
  console_log
    [Text ("[NextWP] Fetching post for slug: " ++ dq ++ slug ++ dq ++ "...")] ;;;
  try
    (res <- fetch net (post_request slug) ;;
     json <- res_json res ;;
     errors <- get json "errors" ;;
     if truthy errors then
       (console_error
          [Text ("[NextWP] GraphQL Error for slug " ++ dq ++ slug ++ dq ++ ":");
           Dump errors] ;;;
        ret VNull)
     else
       (data <- get json "data" ;;
        if negb (truthy (opt_get data "post")) then
          (console_error
             [Text ("[NextWP] No post found for slug " ++ dq ++ slug ++ dq)] ;;;
           ret VNull)
        else
          (console_log
             [Text ("[NextWP] Successfully fetched " ++ dq ++ slug ++ dq)] ;;;
           data <- get json "data" ;;
           get data "post")))
  catch
    (fun error =>
       console_error
         [Text ("[NextWP] Network error fetching slug " ++ dq ++ slug ++ dq ++ ":");
          Caught error] ;;;
       ret VNull).

End Detail.

(** ** src/app/blog/page.tsx, diagnostic detail page *)
Module Debug.

Definition GET_SINGLE_POST_QUERY : document := Detail.GET_SINGLE_POST_QUERY.

Record APIResponse : Type := {
  post : value;
  error : option string;
  debugData : value
}.

Definition post_request (slug : string) : request :=
  {| url := WORDPRESS_GRAPHQL_ENDPOINT;
     method := "POST";
     headers := [("Content-Type", "application/json")];
     query := GET_SINGLE_POST_QUERY;
     variables := [("slug", VStr slug)];
     cache := NoStore |}.

Section WithSerializer.

(** [JSON.stringify] of the runtime, on values that came out of JSON. *)
Variable stringify : value -> string.

Definition getPost (net : request -> outcome) (slug : string)
  : Eff APIResponse :=
  try
    (res <- fetch net (post_request slug) ;;
     json <- res_json res ;;
     data <- get json "data" ;;
     errors <- get json "errors" ;;
     ret {| post := if truthy (opt_get data "post")
                    then opt_get data "post" else VNull;
            error := if truthy errors then Some (stringify errors) else None;
            debugData := json |})
  catch
    (fun e =>
       ret {| post := VNull;
              error := Some (message e);
              debugData := VObj [("error", VStr "Network request failed")] |}).

End WithSerializer.

End Debug.

(** How the two detail pages read a result: [if (!post)]. *)
Definition found (post : value) : bool := truthy post.

(** ** The page components *)

(** The components read further properties of a post ([id], [title],
    [content], [excerpt], [date], [author], [node], [name],
    [featuredImage], [sourceUrl], [categories]); as before none of them
    lives on a built-in prototype.  A component is modelled by the
    data-dependent holes of the element tree it returns, evaluated in
    source order; the markup around the holes is constant. *)

Definition lift {A} (r : completion A) : Eff A := fun c => (r, c).

(** [cond && (<element/>)]: the element, or the falsy value of [cond]. *)
Inductive slot (A : Type) : Type :=
| Shown (a : A)
| Hidden (falsy : value).
Arguments Shown {A} a.
Arguments Hidden {A} falsy.

Record image : Type := { src : value; alt : value }.

(** [xs.map(f)] with a callback that builds an element. *)
Fixpoint each {A} (f : value -> Eff A) (xs : list value) : Eff (list A) :=
  match xs with
  | [] => ret []
  | x :: rest =>
      y <- f x ;;
      ys <- each f rest ;;
      ret (y :: ys)
  end.

Definition array_map {A} (path : string) (v : value) (f : value -> Eff A)
  : Eff (list A) :=
  match v with
  | VArr xs => each f xs
  | VUndefined | VNull => throw (cannot_read v "map")
  | _ => throw (not_a_function path)
  end.

(** Sign test of a number: [x > 0]. *)
Definition positive_number (x : spec_float) : bool :=
  match x with
  | S754_finite false _ _ | S754_infinity false => true
  | _ => false
  end.

(** The holes of [PostCard], of one grid entry and of [Home]. *)
Record card : Type := {
  card_image : option image;
  card_category : slot value;
  card_date : string;
  card_title : value;
  card_excerpt : value;
  card_initial : value;
  card_author : value
}.

Record link : Type := {
  href : string;
  key : value;
  card_post : value
}.

Inductive home : Type :=
| Grid (links : list link)
| EmptyState.

Section Engine.

(** What the runtime supplies.  [charAt0 s] is [s.charAt(0)];
    [long_date s] is [new Date(s).toLocaleDateString('en-US', { year:
    'numeric', month: 'long', day: 'numeric' })] for a string [s], and
    [long_date_other] the same for any other value, where the conversion
    to a primitive may throw; [to_string_other] is the string conversion
    of a template literal for numbers, arrays and objects;
    [gt_zero_other] is [v > 0] for strings, arrays and objects;
    [stringify] and [stringify_pretty] are [JSON.stringify(v)] and
    [JSON.stringify(v, null, 2)]. *)
Variable charAt0 : string -> string.
Variable long_date : string -> string.
Variable long_date_other : value -> completion string.
Variable to_string_other : value -> completion string.
Variable gt_zero_other : value -> completion bool.
Variable stringify : value -> string.
Variable stringify_pretty : value -> string.

Definition formatDate (dateString : value) : Eff string :=
  match dateString with
  | VStr s => ret (long_date s)
  | _ => lift (long_date_other dateString)
  end.

(** [v[0]]. *)
Definition index0 (v : value) : Eff value :=
  match v with
  | VUndefined | VNull => throw (cannot_read v "0")
  | VArr xs => ret (hd VUndefined xs)
  | VStr s => ret (if s =? EmptyString then VUndefined else VStr (charAt0 s))
  | VObj props => ret (own props "0")
  | _ => ret VUndefined
  end.

(** The string a template literal makes of [v]. *)
Definition template_hole (v : value) : Eff string :=
  match v with
  | VStr s => ret s
  | VUndefined => ret "undefined"
  | VNull => ret "null"
  | VBool true => ret "true"
  | VBool false => ret "false"
  | _ => lift (to_string_other v)
  end.

(** [v > 0]. *)
Definition gt_zero (v : value) : Eff bool :=
  match v with
  | VUndefined | VNull => ret false
  | VBool b => ret b
  | VNum x => ret (positive_number x)
  | _ => lift (gt_zero_other v)
  end.

(** [posts.length > 0]. *)
Definition length_gt_zero (posts : value) : Eff bool :=
  match posts with
  | VUndefined | VNull => throw (cannot_read posts "length")
  | VArr xs => ret (match xs with [] => false | _ :: _ => true end)
  | VStr s => ret (negb (s =? EmptyString))
  | VObj props => gt_zero (own props "length")
  | _ => ret false
  end.

(** [post.categories?.nodes[0] && (<span>{post.categories.nodes[0].name}</span>)],
    the same expression in all three files. *)
Definition category_label (post : value) : Eff (slot value) :=
  categories <- get post "categories" ;;
  first <- (if nullish categories then ret VUndefined
            else (nodes <- get categories "nodes" ;; index0 nodes)) ;;
  if truthy first then
    (categories <- get post "categories" ;;
     nodes <- get categories "nodes" ;;
     node <- index0 nodes ;;
     name <- get node "name" ;;
     ret (Shown name))
  else ret (Hidden first).

(** [post.author?.node?.name || 'Anonymous']. *)
Definition author_or_anonymous (post : value) : Eff value :=
  author <- get post "author" ;;
  let name := opt_get (opt_get author "node") "name" in
  ret (if truthy name then name else VStr "Anonymous").

(** *** src/app/page.tsx *)

(** [hasImage ? (<img src=... alt=.../>) : (<div>...</div>)]; [None] is
    the placeholder. *)
Definition card_picture (post : value) : Eff (option image) :=
  featuredImage <- get post "featuredImage" ;;
  let hasImage := opt_get (opt_get featuredImage "node") "sourceUrl" in
  if truthy hasImage then
    (featuredImage <- get post "featuredImage" ;;
     title <- get post "title" ;;
     ret (Some {| src := opt_get (opt_get featuredImage "node") "sourceUrl";
                  alt := title |}))
  else ret None.

(** [post.author?.node?.name?.charAt(0) || 'A']. *)
Definition author_initial (post : value) : Eff value :=
  author <- get post "author" ;;
  first_letter <-
    match opt_get (opt_get author "node") "name" with
    | VUndefined | VNull => ret VUndefined
    | VStr s => ret (VStr (charAt0 s))
    | _ => throw (not_a_function "post.author?.node?.name?.charAt")
    end ;;
  ret (if truthy first_letter then first_letter else VStr "A").

Definition PostCard (post : value) : Eff card :=
  picture <- card_picture post ;;
  category <- category_label post ;;
  date <- get post "date" ;;
  published <- formatDate date ;;
  title <- get post "title" ;;
  excerpt <- get post "excerpt" ;;
  initial <- author_initial post ;;
  name <- author_or_anonymous post ;;
  ret {| card_image := picture;
         card_category := category;
         card_date := published;
         card_title := title;
         card_excerpt := excerpt;
         card_initial := initial;
         card_author := name |}.

Definition post_link (post : value) : Eff link :=
  slug <- get post "slug" ;;
  path <- template_hole slug ;;
  id <- get post "id" ;;
  ret {| href := "/blog/" ++ path;
         key := id;
         card_post := post |}.

Definition Home (net : request -> outcome) : Eff home :=
  posts <- Listing.getPosts net ;;
  some <- length_gt_zero posts ;;
  if some then
    (links <- array_map "posts.map" posts post_link ;;
     ret (Grid links))
  else ret EmptyState.

(** *** src/app/blog/page.tsx *)

Record article : Type := {
  art_image : slot image;
  art_category : slot value;
  art_title : value;
  art_author : value;
  art_date : string;
  art_html : value
}.

(** [post.featuredImage?.node?.sourceUrl && (<div><img
    src={post.featuredImage.node.sourceUrl} alt={post.title}/>...</div>)]. *)
Definition article_picture (post : value) : Eff (slot image) :=
  featuredImage <- get post "featuredImage" ;;
  let url := opt_get (opt_get featuredImage "node") "sourceUrl" in
  if truthy url then
    (featuredImage <- get post "featuredImage" ;;
     node <- get featuredImage "node" ;;
     sourceUrl <- get node "sourceUrl" ;;
     title <- get post "title" ;;
     ret (Shown {| src := sourceUrl; alt := title |}))
  else ret (Hidden url).

(** The article markup, which the two detail pages share word for word
    in its holes. *)
Definition render_article (post : value) : Eff article :=
  picture <- article_picture post ;;
  category <- category_label post ;;
  title <- get post "title" ;;
  name <- author_or_anonymous post ;;
  date <- get post "date" ;;
  published <- formatDate date ;;
  content <- get post "content" ;;
  ret {| art_image := picture;
         art_category := category;
         art_title := title;
         art_author := name;
         art_date := published;
         art_html := content |}.

Inductive detail_page : Type :=
| NotFoundPage
| ArticlePage (a : article).

(** [notFound()] does not return: it unwinds to the framework, which
    serves the 404 page, and nothing in [BlogPost] catches it. *)
Definition BlogPost (net : request -> outcome) (slug : string)
  : Eff detail_page :=
  post <- Detail.getPost net slug ;;
  if negb (truthy post) then ret NotFoundPage
  else (a <- render_article post ;; ret (ArticlePage a)).

Record diagnosis : Type := {
  requested : string;
  endpoint : string;
  raw : string;
  error_box : slot string
}.

Inductive debug_page : Type :=
| DebugView (d : diagnosis)
| DebugArticle (a : article).

(** [error && (...)] for [error : string | undefined]. *)
Definition error_slot (error : option string) : slot string :=
  match error with
  | None => Hidden VUndefined
  | Some m => if m =? EmptyString then Hidden (VStr m) else Shown m
  end.

Definition DebugBlogPost (net : request -> outcome) (slug : string)
  : Eff debug_page :=
  r <- Debug.getPost stringify net slug ;;
  if negb (truthy (Debug.post r)) then
    ret (DebugView {| requested := slug;
                      endpoint := WORDPRESS_GRAPHQL_ENDPOINT;
                      raw := stringify_pretty (Debug.debugData r);
                      error_box := error_slot (Debug.error r) |})
  else (a <- render_article (Debug.post r) ;; ret (DebugArticle a)).

End Engine.

(** ** The content service *)
Module ContentService.

(** Modelled from the spec: the ContentItem of the data model (section 3);
    the remote content service that holds the items is outside this
    repository. *)
Record ContentItem : Type := {
  id : string;
  slug : string;
  title : string;
  content : string;
  excerpt : string;
  date : string;
  author_name : string;
  cover : option string;
  categories : list (string * string)
}.

(** Modelled from the spec: the node the service holds for an item, in
    the shape the three query documents select from. *)
Definition node_of (it : ContentItem) : value :=
  VObj
    [("id", VStr (id it));
     ("slug", VStr (slug it));
     ("title", VStr (title it));
     ("content", VStr (content it));
     ("excerpt", VStr (excerpt it));
     ("date", VStr (date it));
     ("author", VObj [("node", VObj [("name", VStr (author_name it))])]);
     ("featuredImage",
      match cover it with
      | Some u => VObj [("node", VObj [("sourceUrl", VStr u)])]
      | None => VNull
      end);
     ("categories",
      VObj [("nodes",
             VArr (map (fun c => VObj [("name", VStr (fst c));
                                       ("slug", VStr (snd c))])
                       (categories it)))])].

(** Modelled from the spec: execution of one selected field against its
    parent object (section 6, "each projected to ...").  A leaf is copied;
    a field with a selection set is projected onto it, element by element
    when it is a list; [null] stays [null]. *)
Fixpoint select_field (f : selection) (parent : value) : string * value :=
  match f with
  | Field name _ sub =>
      let x := opt_get parent name in
      (name,
       match sub with
       | [] => x
       | _ :: _ =>
           match x with
           | VObj _ => VObj (map (fun g => select_field g x) sub)
           | VArr xs =>
               VArr (map (fun y => VObj (map (fun g => select_field g y) sub)) xs)
           | _ => x
           end
       end)
  end.

Fixpoint lookup_arg (k : string) (args : list (string * arg)) : option arg :=
  match args with
  | [] => None
  | (k', a) :: rest => if k' =? k then Some a else lookup_arg k rest
  end.

(** Modelled from the spec: the two root fields of the wire contract
    (section 6).  [posts(first: n)] delivers up to [n] items in the
    service's order; [post(id: $slug, idType: SLUG)] delivers the item
    of exactly that slug, or [null]. *)
Definition resolve_root (store : list ContentItem)
           (vars : list (string * value)) (f : selection) : option value :=
  match f with
  | Field name args _ =>
      if name =? "posts" then
        match lookup_arg "first" args with
        | Some (AInt n) =>
            Some (VObj [("nodes", VArr (map node_of (firstn n store)))])
        | _ => None
        end
      else if name =? "post" then
        match lookup_arg "id" args, lookup_arg "idType" args with
        | Some (AVar x), Some (AEnum "SLUG") =>
            match own vars x with
            | VStr s =>
                Some match find (fun it => slug it =? s) store with
                     | Some it => node_of it
                     | None => VNull
                     end
            | _ => None
            end
        | _, _ => None
        end
      else None
  end.

Definition field_name (f : selection) : string :=
  match f with Field name _ _ => name end.

(** Modelled from the spec: the answer to one request,
    [{ data?: {...}, errors?: [...] }]. *)
Definition respond (store : list ContentItem) (req : request) : outcome :=
  let f := root (query req) in
  Parsed
    match resolve_root store (variables req) f with
    | Some v => VObj [("data", VObj [select_field f (VObj [(field_name f, v)])])]
    | None =>
        VObj [("errors",
               VArr [VObj [("message", VStr "Cannot query this field")]])]
    end.

End ContentService.

Import ContentService.

(** ** Reading results *)

Definition completes {A} (r : completion A * console) : bool :=
  match fst r with
  | Normal _ => true
  | Abrupt _ => false
  end.

Definition is_set {A} (o : option A) : bool :=
  match o with
  | Some _ => true
  | None => false
  end.

(** A computation that leaves the console alone and whose completion
    does not depend on it. *)
Definition silent {A} (m : Eff A) : Prop :=
  exists r, forall c, m c = (r, c).

(** The same computation run twice in a row, the second run starting
    from the console the first one left; the two completions. *)
Definition twice {A} (m : Eff A) (c : console) : completion A * completion A :=
  let (r1, c1) := m c in
  let (r2, _) := m c1 in
  (r1, r2).

(** ** Sample data *)

Definition demo_item (n : string) : ContentItem :=
  {| id := "cG9zdDo" ++ n;
     slug := "post-" ++ n;
     title := "Post " ++ n;
     content := "<p>Body " ++ n ++ "</p>";
     excerpt := "<p>Short " ++ n ++ "</p>";
     date := "2024-01-0" ++ n ++ "T00:00:00";
     author_name := "admin";
     cover := Some ("https://example.org/" ++ n ++ ".jpg")%string;
     categories := [("News", "news"); ("Tech", "tech")] |}.

Definition demo_store : list ContentItem :=
  [demo_item "1"; demo_item "2"; demo_item "3"].

Definition graphql_errors : value :=
  VArr [VObj [("message", VStr "Internal server error")]].

(** What [JSON.stringify] makes of [graphql_errors]. *)
Definition graphql_errors_text : string :=
  "[{" ++ dq ++ "message" ++ dq ++ ":" ++ dq ++ "Internal server error" ++ dq ++ "}]".

Definition partial_post : value :=
  VObj [("id", VStr "cG9zdDox"); ("title", VStr "Hello world");
        ("featuredImage", VNull)].

(** A partial success: the post resolved, one field of it did not. *)
Definition partial_success : value :=
  VObj [("data", VObj [("post", partial_post)]); ("errors", graphql_errors)].

(** The diagnostic fetch of that response; the serializer is the one
    that is right on [graphql_errors], the only value it meets here. *)
Definition partial_diagnosis : completion Debug.APIResponse * console :=
  Debug.getPost (fun _ => graphql_errors_text)
                (fun _ => Parsed partial_success) "hello-world" [].

Definition errors_reported (o : outcome) : bool :=
  match o with
  | Parsed json => truthy (opt_get json "errors")
  | _ => false
  end.

Definition partial_slugs : value :=
  VObj [("data", VObj [("posts", VObj [("nodes", VArr [VObj [("slug", VStr "hello-world")]])])]);
        ("errors", graphql_errors)].

Definition nodes_missing : value :=
  VObj [("data", VObj [("posts", VObj [])])].

(** ** What the service delivers per item *)

Definition author_view (it : ContentItem) : value :=
  VObj [("node", VObj [("name", VStr (author_name it))])].

Definition cover_view (it : ContentItem) : value :=
  match cover it with
  | Some u => VObj [("node", VObj [("sourceUrl", VStr u)])]
  | None => VNull
  end.

(** An item under the selection set of [GET_POSTS_QUERY]. *)
Definition listing_view (it : ContentItem) : value :=
  VObj
    [("id", VStr (id it));
     ("slug", VStr (slug it));
     ("title", VStr (title it));
     ("excerpt", VStr (excerpt it));
     ("date", VStr (date it));
     ("author", author_view it);
     ("featuredImage", cover_view it);
     ("categories",
      VObj [("nodes",
             VArr (map (fun c => VObj [("name", VStr (fst c));
                                       ("slug", VStr (snd c))])
                       (categories it)))])].

(** An item under the selection set of [GET_SINGLE_POST_QUERY]. *)
Definition detail_view (it : ContentItem) : value :=
  VObj
    [("id", VStr (id it));
     ("title", VStr (title it));
     ("content", VStr (content it));
     ("date", VStr (date it));
     ("excerpt", VStr (excerpt it));
     ("author", author_view it);
     ("featuredImage", cover_view it);
     ("categories",
      VObj [("nodes",
             VArr (map (fun c => VObj [("name", VStr (fst c))])
                       (categories it)))])].

(** An item under the selection set of [GET_POST_SLUGS_QUERY], and the
    route parameter made of it. *)
Definition slug_view (it : ContentItem) : value :=
  VObj [("slug", VStr (slug it))].

Definition find_by_slug (s : string) (store : list ContentItem)
  : option ContentItem :=
  find (fun it => slug it =? s) store.

(** ** What the pages show of an item *)

Definition first_category (it : ContentItem) : slot value :=
  match categories it with
  | [] => Hidden VUndefined
  | cat :: _ => Shown (VStr (fst cat))
  end.

Definition shown_author (it : ContentItem) : value :=
  VStr (if author_name it =? EmptyString then "Anonymous" else author_name it).

Definition item_article (long_date : string -> string) (it : ContentItem)
  : article :=
  {| art_image :=
       match cover it with
       | Some u =>
           if u =? EmptyString then Hidden (VStr u)
           else Shown {| src := VStr u; alt := VStr (title it) |}
       | None => Hidden VUndefined
       end;
     art_category := first_category it;
     art_title := VStr (title it);
     art_author := shown_author it;
     art_date := long_date (date it);
     art_html := VStr (content it) |}.

Definition item_card (charAt0 long_date : string -> string) (it : ContentItem)
  : card :=
  {| card_image :=
       match cover it with
       | Some u =>
           if u =? EmptyString then None
           else Some {| src := VStr u; alt := VStr (title it) |}
       | None => None
       end;
     card_category := first_category it;
     card_date := long_date (date it);
     card_title := VStr (title it);
     card_excerpt := VStr (excerpt it);
     card_initial :=
       VStr (if charAt0 (author_name it) =? EmptyString then "A"
             else charAt0 (author_name it));
     card_author := shown_author it |}.

Definition item_link (it : ContentItem) : link :=
  {| href := "/blog/" ++ slug it;
     key := VStr (id it);
     card_post := listing_view it |}.

(** Stand-ins for the runtime in concrete runs: the first character of
    a string, and a date left as it is written. *)
Definition first_char (s : string) : string :=
  match s with
  | EmptyString => EmptyString
  | String a _ => String a EmptyString
  end.

Definition date_as_written (s : string) : string := s.

(** Stand-ins for the runtime's conversions of values that are not
    strings; none of them throws, as the runtime does not on plain JSON
    values, and each gives what the runtime gives for a plain object:
    an invalid date, the text of an object, and a comparison with zero
    that fails.  No concrete run below reaches one of them. *)
Definition invalid_date (v : value) : completion string :=
  Normal "Invalid Date".

Definition object_text (v : value) : completion string :=
  Normal "[object Object]".

Definition not_above_zero (v : value) : completion bool :=
  Normal false.

(** A partial success whose post is complete enough to render. *)
Definition dated_post : value :=
  VObj [("id", VStr "cG9zdDox"); ("title", VStr "Hello world");
        ("content", VStr "<p>Welcome.</p>");
        ("date", VStr "2024-01-01T00:00:00");
        ("author", VObj [("node", VObj [("name", VStr "admin")])]);
        ("featuredImage", VNull);
        ("categories", VObj [("nodes", VArr [VObj [("name", VStr "News")]])])].

Definition dated_partial_success : value :=
  VObj [("data", VObj [("post", dated_post)]); ("errors", graphql_errors)].

(** A post whose [categories] object has no [nodes]. *)
Definition post_without_category_nodes : value :=
  VObj [("id", VStr "cG9zdDox"); ("title", VStr "Hello world");
        ("date", VStr "2024-01-01T00:00:00");
        ("categories", VObj [])].

(** A post whose author name is a number. *)
Definition post_with_numeric_author : value :=
  VObj [("id", VStr "cG9zdDox"); ("title", VStr "Hello world");
        ("date", VStr "2024-01-01T00:00:00");
        ("author",
         VObj [("node", VObj [("name", VNum (S754_finite false BinNums.xH BinNums.Z0))])])].

Definition one_post (post : value) : value :=
  VObj [("data", VObj [("post", post)])].

Definition some_nodes (nodes : value) : value :=
  VObj [("data", VObj [("posts", VObj [("nodes", nodes)])])].

(** A backend that answers every request with the same body. *)
Definition answer (json : value) : request -> outcome := fun _ => Parsed json.

Definition nodes_with_gap : list value :=
  [VObj [("slug", VStr "first-post")]; VObj [("title", VStr "Untitled")]].

Definition nodes_with_null : list value :=
  [VObj [("slug", VStr "first-post")]; VNull].

(** Values on which [?.charAt(0)] does not throw: absent ones and
    strings. *)
Definition text_or_absent (v : value) : bool :=
  match v with
  | VUndefined | VNull | VStr _ => true
  | _ => false
  end.

(** ** Basic facts *)

Ltac run :=
  cbv [Listing.getPosts Detail.generateStaticParams Detail.getPost Debug.getPost
       try_catch bind ret throw emit console_log console_warn console_error
       fetch res_json get Detail.call_map Detail.slug_param].

Lemma try_catch_completes {A} (body : Eff A) (h : exn -> Eff A) (c : console) :
  (forall e c', completes (h e c') = true) ->
  completes (try_catch body h c) = true.
Proof.
  intros Hh. unfold try_catch.
  destruct (body c) as [[a | e] c']; [reflexivity | apply Hh].
Qed.

Lemma bind_emit_completes {A} l args (a : A) (c : console) :
  completes (bind (emit l args) (fun _ => ret a) c) = true.
Proof. reflexivity. Qed.

Lemma getPosts_completes net c : completes (Listing.getPosts net c) = true.
Proof.
  unfold Listing.getPosts. apply try_catch_completes.
  intros e c'. apply bind_emit_completes.
Qed.

Lemma generateStaticParams_completes net c :
  completes (Detail.generateStaticParams net c) = true.
Proof.
  unfold Detail.generateStaticParams. apply try_catch_completes.
  intros e c'. apply bind_emit_completes.
Qed.

Lemma getPost_completes net slug c :
  completes (Detail.getPost net slug c) = true.
Proof.
  unfold Detail.getPost, bind at 1. cbn [console_log emit].
  apply try_catch_completes. intros e c'. apply bind_emit_completes.
Qed.

Lemma debug_getPost_completes stringify net slug c :
  completes (Debug.getPost stringify net slug c) = true.
Proof.
  unfold Debug.getPost. apply try_catch_completes. reflexivity.
Qed.

(** *** The service's answers to the three documents *)

Lemma respond_posts store :
  respond store Listing.posts_request =
  Parsed (VObj [("data",
                 VObj [("posts",
                        VObj [("nodes",
                               VArr (map listing_view (firstn 12 store)))])])]).
Proof.
  unfold respond. cbn -[firstn node_of]. rewrite map_map.
  rewrite (map_ext _ listing_view); [reflexivity |].
  intros [i s t b e d a [u |] cs]; cbn; rewrite map_map; reflexivity.
Qed.

Lemma respond_slugs store :
  respond store Detail.slugs_request =
  Parsed (VObj [("data",
                 VObj [("posts",
                        VObj [("nodes",
                               VArr (map slug_view (firstn 100 store)))])])]).
Proof.
  unfold respond. cbn -[firstn node_of]. rewrite map_map.
  rewrite (map_ext _ slug_view); [reflexivity |].
  intros it. reflexivity.
Qed.

Lemma respond_post store s (mk : string -> request) :
  mk = Detail.post_request \/ mk = Debug.post_request ->
  respond store (mk s) =
  Parsed (VObj [("data",
                 VObj [("post",
                        match find_by_slug s store with
                        | Some it => detail_view it
                        | None => VNull
                        end)])]).
Proof.
  intros [-> | ->]; unfold respond, find_by_slug; cbn -[find node_of];
    (destruct (find _ store) as [[i sl t b e d a [u |] cs] |];
     cbn; rewrite ?map_map; reflexivity).
Qed.

(** *** The route parameters *)

Lemma map_eff_slug_param_console xs c :
  Detail.map_eff Detail.slug_param xs c =
  (fst (Detail.map_eff Detail.slug_param xs []), c).
Proof.
  revert c. induction xs as [| x xs IH]; intros c; [reflexivity |].
  cbn [Detail.map_eff]. unfold bind at 1 3.
  assert (Hx : Detail.slug_param x c = (fst (Detail.slug_param x []), c))
    by (destruct x; reflexivity).
  rewrite Hx.
  destruct (Detail.slug_param x []) as [[y | e] c0]; cbn [fst]; [| reflexivity].
  unfold bind. rewrite (IH c), (IH c0).
  destruct (fst (Detail.map_eff Detail.slug_param xs [])); reflexivity.
Qed.

Lemma map_eff_slug_views items c :
  Detail.map_eff Detail.slug_param (map slug_view items) c =
  (Normal (map slug_view items), c).
Proof.
  revert c. induction items as [| it items IH]; intros c; [reflexivity |].
  cbn [map Detail.map_eff]. unfold bind at 1. cbn. unfold bind.
  rewrite IH. reflexivity.
Qed.

Lemma map_eff_slug_param_ok xs c :
  forallb (fun n => negb (nullish n)) xs = true ->
  Detail.map_eff Detail.slug_param xs c =
  (Normal (map (fun n => VObj [("slug", opt_get n "slug")]) xs), c).
Proof.
  revert c. induction xs as [| x xs IH]; intros c H; [reflexivity |].
  cbn [forallb] in H. apply andb_true_iff in H. destruct H as [Hx Hxs].
  cbn [map Detail.map_eff]. unfold bind at 1.
  destruct x; try discriminate Hx; cbn; unfold bind; rewrite (IH _ Hxs);
    reflexivity.
Qed.

Lemma map_eff_slug_param_nullish xs c :
  existsb nullish xs = true ->
  exists v, In v xs /\ nullish v = true /\
            Detail.map_eff Detail.slug_param xs c =
            (Abrupt (cannot_read v "slug"), c).
Proof.
  revert c. induction xs as [| x xs IH]; intros c H; [discriminate H |].
  cbn [existsb] in H. destruct (nullish x) eqn:Hx.
  - exists x. split; [left; reflexivity |]. split; [exact Hx |].
    destruct x; try discriminate Hx; reflexivity.
  - cbn [orb] in H. destruct (IH c H) as (v & Hin & Hv & Hrun).
    exists v. split; [right; exact Hin |]. split; [exact Hv |].
    cbn [Detail.map_eff]. unfold bind at 1.
    destruct x; try discriminate Hx; cbn; unfold bind; rewrite Hrun;
      reflexivity.
Qed.

Lemma nodes_shape json v :
  opt_get (opt_get (opt_get json "data") "posts") "nodes" = v ->
  v <> VUndefined ->
  exists props dprops pprops,
    json = VObj props /\ own props "data" = VObj dprops /\
    own dprops "posts" = VObj pprops /\ own pprops "nodes" = v.
Proof.
  intros H Hv.
  destruct json as [| | b | x | s | xs | props];
    try (cbn in H; congruence).
  cbn [opt_get] in H.
  destruct (own props "data") as [| | b | x | s | xs | dprops] eqn:Hd;
    try (cbn in H; congruence).
  cbn [opt_get] in H.
  destruct (own dprops "posts") as [| | b | x | s | xs | pprops] eqn:Hp;
    try (cbn in H; congruence).
  exists props, dprops, pprops. repeat split; assumption.
Qed.

Lemma getPost_null_or_truthy_aux net slug c :
  match fst (Detail.getPost net slug c) with
  | Normal p => p = VNull \/ truthy p = true
  | Abrupt _ => False
  end.
Proof.
  run. destruct (net (Detail.post_request slug)) as [m | m | json];
    [left; reflexivity | left; reflexivity |].
  destruct json as [| | b | x | s | xs | props]; try (left; reflexivity).
  destruct (truthy (own props "errors")); [left; reflexivity |].
  destruct (truthy (opt_get (own props "data") "post")) eqn:E; cbn [negb];
    [| left; reflexivity].
  destruct (own props "data") as [| | b | x | s | xs | dprops];
    try discriminate E.
  right. exact E.
Qed.

(** ** Theorems *)

(** C1. Whatever the backend does, [getPosts] completes normally; on a
    transport failure, an unparsable body or a response with a truthy
    [errors] it returns the empty array and writes the detail to the
    console only.  All four fetchers complete normally for every
    backend, and on a transport failure each returns its empty or absent
    outcome. *)
Theorem fetchers_never_raise :
  forall (stringify : value -> string) (net : request -> outcome)
         (slug : string) (c : console),
    completes (Listing.getPosts net c) = true /\
    completes (Detail.generateStaticParams net c) = true /\
    completes (Detail.getPost net slug c) = true /\
    completes (Debug.getPost stringify net slug c) = true /\
    match net Listing.posts_request with
    | TransportFailure m =>
        Listing.getPosts net c =
        (Normal (VArr []),
         c ++ [(ErrorLevel, [Text "Fetch Error:"; Caught (TypeError m)])])
    | Unparsable m =>
        Listing.getPosts net c =
        (Normal (VArr []),
         c ++ [(ErrorLevel, [Text "Fetch Error:"; Caught (SyntaxError m)])])
    | Parsed json =>
        if truthy (opt_get json "errors") then
          Listing.getPosts net c =
          (Normal (VArr []),
           c ++ [(ErrorLevel, [Text "GraphQL Errors:"; Dump (opt_get json "errors")])])
        else True
    end /\
    match net Detail.slugs_request with
    | TransportFailure m =>
        Detail.generateStaticParams net c =
        (Normal (VArr []),
         c ++ [(ErrorLevel, [Text "[NextWP] Error fetching slugs for SSG:";
                             Caught (TypeError m)])])
    | _ => True
    end /\
    match net (Detail.post_request slug) with
    | TransportFailure m =>
        Detail.getPost net slug c =
        (Normal VNull,
         (c ++ [(LogLevel,
                 [Text ("[NextWP] Fetching post for slug: "
                        ++ dq ++ slug ++ dq ++ "...")])])
           ++ [(ErrorLevel,
                [Text ("[NextWP] Network error fetching slug "
                       ++ dq ++ slug ++ dq ++ ":");
                 Caught (TypeError m)])])
    | _ => True
    end /\
    match net (Debug.post_request slug) with
    | TransportFailure m =>
        Debug.getPost stringify net slug c =
        (Normal {| Debug.post := VNull;
                   Debug.error := Some m;
                   Debug.debugData :=
                     VObj [("error", VStr "Network request failed")] |},
         c)
    | _ => True
    end.
Proof.
  intros stringify net slug c.
  split; [apply getPosts_completes |].
  split; [apply generateStaticParams_completes |].
  split; [apply getPost_completes |].
  split; [apply debug_getPost_completes |].
  repeat split.
  - run. destruct (net Listing.posts_request) as [m | m | json]; try reflexivity.
    destruct json; try reflexivity.
    cbn [opt_get]. destruct (truthy (own props "errors")); [reflexivity | exact I].
  - run. destruct (net Detail.slugs_request); [reflexivity | exact I | exact I].
  - run. destruct (net (Detail.post_request slug)); [reflexivity | exact I | exact I].
  - run. destruct (net (Debug.post_request slug)); [reflexivity | exact I | exact I].
Qed.

(** C5. Against a content service holding [N] items, [getPosts] returns
    exactly [min N 12] nodes, and they are the service's first items in
    the service's order (same ids and slugs, position by position). *)
Theorem listRecent_returns_first_twelve :
  forall (store : list ContentItem) (c : console),
    exists nodes : list value,
      Listing.getPosts (respond store) c = (Normal (VArr nodes), c) /\
      length nodes = Nat.min (length store) 12 /\
      nodes = map listing_view (firstn 12 store) /\
      map (fun n => opt_get n "id") nodes =
        map (fun it => VStr (id it)) (firstn 12 store) /\
      map (fun n => opt_get n "slug") nodes =
        map (fun it => VStr (slug it)) (firstn 12 store).
Proof.
  intros store c. exists (map listing_view (firstn 12 store)).
  split.
  - run. rewrite respond_posts. reflexivity.
  - rewrite length_map, length_firstn, Nat.min_comm.
    repeat split; rewrite map_map; apply map_ext; reflexivity.
Qed.

(** C4. For a slug the content service holds, the standard [getPost]
    returns the post (a truthy value, so the page renders it) and each
    projected field read from it is the service's value for the item. *)
Theorem getBySlug_found_field_for_field :
  forall (store : list ContentItem) (s : string) (it : ContentItem)
         (c : console),
    find_by_slug s store = Some it ->
    exists (p : value) (c' : console),
      Detail.getPost (respond store) s c = (Normal p, c') /\
      found p = true /\
      slug it = s /\
      opt_get p "id" = VStr (id it) /\
      opt_get p "title" = VStr (title it) /\
      opt_get p "content" = VStr (content it) /\
      opt_get p "date" = VStr (date it) /\
      opt_get p "excerpt" = VStr (excerpt it) /\
      opt_get (opt_get (opt_get p "author") "node") "name" =
        VStr (author_name it) /\
      opt_get p "featuredImage" =
        match cover it with
        | Some u => VObj [("node", VObj [("sourceUrl", VStr u)])]
        | None => VNull
        end /\
      opt_get (opt_get p "categories") "nodes" =
        VArr (map (fun cat => VObj [("name", VStr (fst cat))]) (categories it)).
Proof.
  intros store s it c Hfind.
  exists (detail_view it). eexists. split.
  - run. rewrite (respond_post store s Detail.post_request) by (left; reflexivity).
    rewrite Hfind. cbn. reflexivity.
  - split; [reflexivity |]. split.
    + apply find_some in Hfind. destruct Hfind as [_ H].
      apply String.eqb_eq in H. exact H.
    + repeat split.
Qed.

(** C6 (amended). Against a content service holding [N] items,
    [generateStaticParams] returns the route parameters of the first
    [min N 100] items in the service's order.  For every backend it
    returns an array, decided by [data.posts.nodes] alone, whatever the
    response holds under [errors]: when [nodes] is an array without
    [null] entries, one parameter per node, in order, holding the node's
    [slug]; the empty array when [nodes] is missing, falsy, not an
    array, or an array with a [null] entry, and after a transport
    failure or an unparsable body. *)
Theorem listAllSlugs_bounded_and_empty_without_nodes :
  forall (store : list ContentItem) (net : request -> outcome) (c : console),
    (Detail.generateStaticParams (respond store) c =
       (Normal (VArr (map slug_view (firstn 100 store))), c) /\
     length (map slug_view (firstn 100 store)) = Nat.min (length store) 100 /\
     length (map slug_view (firstn 100 store)) <= 100) /\
    (exists xs c', Detail.generateStaticParams net c = (Normal (VArr xs), c')) /\
    match net Detail.slugs_request with
    | TransportFailure m =>
        Detail.generateStaticParams net c =
        (Normal (VArr []),
         c ++ [(ErrorLevel, [Text "[NextWP] Error fetching slugs for SSG:";
                             Caught (TypeError m)])])
    | Unparsable m =>
        Detail.generateStaticParams net c =
        (Normal (VArr []),
         c ++ [(ErrorLevel, [Text "[NextWP] Error fetching slugs for SSG:";
                             Caught (SyntaxError m)])])
    | Parsed json =>
        match opt_get (opt_get (opt_get json "data") "posts") "nodes" with
        | VArr xs =>
            if forallb (fun n => negb (nullish n)) xs then
              Detail.generateStaticParams net c =
              (Normal (VArr (map (fun n => VObj [("slug", opt_get n "slug")]) xs)),
               c)
            else fst (Detail.generateStaticParams net c) = Normal (VArr [])
        | _ => fst (Detail.generateStaticParams net c) = Normal (VArr [])
        end
    end.
Proof.
  intros store net c. split; [| split].
  - split.
    + run. rewrite respond_slugs. cbn -[firstn].
      rewrite map_eff_slug_views. reflexivity.
    + rewrite length_map, length_firstn. split; [apply Nat.min_comm | lia].
  - run. destruct (net Detail.slugs_request) as [m | m | json];
      [do 2 eexists; reflexivity | do 2 eexists; reflexivity |].
    destruct json as [| | b | x | s | xs | props];
      try (do 2 eexists; reflexivity).
    destruct (truthy (opt_get (opt_get (own props "data") "posts") "nodes")) eqn:E;
      cbn [negb]; [| do 2 eexists; reflexivity].
    destruct (own props "data") as [| | b | x | s | xs | dprops];
      try discriminate E.
    cbn [opt_get] in *.
    destruct (own dprops "posts") as [| | b | x | s | xs | pprops];
      try discriminate E.
    cbn [opt_get] in *.
    destruct (own pprops "nodes") as [| | b | x | s | xs | nprops];
      try discriminate E; try (do 2 eexists; reflexivity).
    rewrite map_eff_slug_param_console.
    destruct (fst (Detail.map_eff Detail.slug_param xs []));
      do 2 eexists; reflexivity.
  - destruct (net Detail.slugs_request) as [m | m | json] eqn:Hnet;
      [run; rewrite Hnet; reflexivity | run; rewrite Hnet; reflexivity |].
    destruct (truthy (opt_get (opt_get (opt_get json "data") "posts") "nodes"))
      eqn:E.
    + destruct (nodes_shape json _ eq_refl)
        as (props & dprops & pprops & -> & Hd & Hp & Hn).
      { intros H. rewrite H in E. discriminate E. }
      cbn [opt_get]. rewrite Hd. cbn [opt_get]. rewrite Hp. cbn [opt_get].
      cbv [Detail.generateStaticParams try_catch bind ret throw emit
           console_warn console_error fetch res_json get Detail.call_map].
      rewrite Hnet. cbn [opt_get]. rewrite Hd. cbn [opt_get]. rewrite Hp.
      cbn [opt_get].
      cbn [opt_get] in E. rewrite Hd in E. cbn [opt_get] in E.
      rewrite Hp in E. cbn [opt_get] in E. rewrite E. cbn [negb].
      destruct (own pprops "nodes") as [| | b | x | s | xs | nprops];
        try discriminate E; try reflexivity.
      destruct (forallb (fun n => negb (nullish n)) xs) eqn:Hall.
      * rewrite (map_eff_slug_param_ok xs c Hall). reflexivity.
      * assert (Hex : existsb nullish xs = true).
        { clear -Hall. induction xs as [| y ys IH]; [discriminate Hall |].
          cbn [forallb existsb] in *. destruct (nullish y); [reflexivity |].
          cbn [negb andb orb] in *. apply IH. exact Hall. }
        destruct (map_eff_slug_param_nullish xs c Hex) as (v & _ & _ & Hrun).
        rewrite Hrun. reflexivity.
    + assert (Hempty : fst (Detail.generateStaticParams net c) = Normal (VArr [])).
      { run. rewrite Hnet.
        destruct json as [| | b | x | s | xs | props]; try reflexivity.
        cbn [opt_get] in E. rewrite E. reflexivity. }
      destruct (opt_get (opt_get (opt_get json "data") "posts") "nodes");
        try exact Hempty.
      discriminate E.
Qed.

(** C10. On a success response whose [data.posts] has no [nodes],
    nothing throws inside [getPosts]: the read yields [undefined], and
    that, not the empty array, is what the caller receives. *)
Theorem getPosts_nodes_missing_returns_undefined :
  Listing.getPosts (fun _ => Parsed nodes_missing) [] = (Normal VUndefined, []).
Proof. reflexivity. Qed.

(** C2 (amended). For a response whose [errors] is an array, neither
    variant throws; the standard [getPost] returns [null]; the
    diagnostic [getPost] reports the serialized errors and the response,
    and its post is found exactly when the response also carries a
    truthy [data.post]. *)
Theorem errors_present_outcomes :
  forall (stringify : value -> string) (net : request -> outcome)
         (slug : string) (c : console) (json : value) (es : list value),
    net (Detail.post_request slug) = Parsed json ->
    net (Debug.post_request slug) = Parsed json ->
    opt_get json "errors" = VArr es ->
    (exists c', Detail.getPost net slug c = (Normal VNull, c')) /\
    (exists r,
        Debug.getPost stringify net slug c = (Normal r, c) /\
        Debug.error r = Some (stringify (VArr es)) /\
        Debug.debugData r = json /\
        found (Debug.post r) = truthy (opt_get (opt_get json "data") "post")).
Proof.
  intros stringify net slug c json es H1 H2 He.
  destruct json as [| | b | x | s | xs | props]; try discriminate He.
  cbn [opt_get] in *. split.
  - run. rewrite H1, He. cbn. eexists. reflexivity.
  - run. rewrite H2, He. cbn. eexists. split; [reflexivity |].
    cbn. repeat split.
    unfold found.
    destruct (truthy (opt_get (own props "data") "post")) eqn:E;
      [exact E | reflexivity].
Qed.

(** C3 (amended). The listing fetch and the standard [getPost] each
    complete with one bare value, for [getPost] [null] or a truthy post;
    neither has a place for an error.  The diagnostic [getPost] always
    completes with one record whose post and error are filled
    independently.  The post is the truthy [data.post], else [null].
    The error is set exactly when the fetch did not get through the
    body, which is after a transport failure, after a body that did not
    parse and for a parsed body that is a bare [null] (the read of
    [json.data] throws), and then it is the failure's message and the
    post is [null]; or when [errors] is truthy, and then it is the
    serialized [errors].  So post and error are populated together
    exactly for a response carrying both a truthy [data.post] and a
    truthy [errors]. *)
Theorem diagnostic_result_fields :
  forall (stringify : value -> string) (net : request -> outcome)
         (slug : string) (c : console),
    (exists v c', Listing.getPosts net c = (Normal v, c')) /\
    (exists p c',
        Detail.getPost net slug c = (Normal p, c') /\
        (p = VNull \/ truthy p = true)) /\
    exists r,
      Debug.getPost stringify net slug c = (Normal r, c) /\
      match net (Debug.post_request slug) with
      | TransportFailure m | Unparsable m =>
          Debug.post r = VNull /\ Debug.error r = Some m
      | Parsed json =>
          Debug.post r =
            (if nullish json then VNull
             else if truthy (opt_get (opt_get json "data") "post")
                  then opt_get (opt_get json "data") "post" else VNull) /\
          Debug.error r =
            (if nullish json then Some (message (cannot_read json "data"))
             else if truthy (opt_get json "errors")
                  then Some (stringify (opt_get json "errors")) else None) /\
          found (Debug.post r) = truthy (opt_get (opt_get json "data") "post") /\
          is_set (Debug.error r) =
            (truthy (opt_get json "errors") || nullish json)%bool /\
          (found (Debug.post r) = true /\ Debug.error r <> None <->
           truthy (opt_get (opt_get json "data") "post") = true /\
           truthy (opt_get json "errors") = true)
      end.
Proof.
  intros stringify net slug c. split; [| split].
  - pose proof (getPosts_completes net c) as H. unfold completes in H.
    destruct (Listing.getPosts net c) as [[v | e] c']; [| discriminate H].
    exists v, c'. reflexivity.
  - pose proof (getPost_null_or_truthy_aux net slug c) as H.
    destruct (Detail.getPost net slug c) as [[p | e] c']; [| contradiction].
    exists p, c'. split; [reflexivity | exact H].
  - run. destruct (net (Debug.post_request slug)) as [m | m | json];
      [eexists; split; [reflexivity | split; reflexivity] ..|].
    destruct json as [| | b | x | s | xs | props];
      (eexists; split; [reflexivity |]);
      cbn [Debug.post Debug.error opt_get nullish is_set]; unfold found.
    7: destruct (truthy (opt_get (own props "data") "post")) eqn:Ep;
       destruct (truthy (own props "errors")) eqn:Ee.
    all: cbn; rewrite ?Ep; intuition (discriminate || congruence).
Qed.

(** C7. At the diagnostic call site, when the response is an object
    without a truthy [data.post], the result has a [null] post and its
    debug payload is the parsed response itself; the content service
    answers a slug it does not hold with such a response. *)
Theorem diagnostic_missing_carries_response :
  forall (stringify : value -> string) (net : request -> outcome)
         (slug : string) (c : console) (props : list (string * value)),
    net (Debug.post_request slug) = Parsed (VObj props) ->
    truthy (opt_get (own props "data") "post") = false ->
    exists r,
      Debug.getPost stringify net slug c = (Normal r, c) /\
      Debug.post r = VNull /\
      found (Debug.post r) = false /\
      Debug.debugData r = VObj props.
Proof.
  intros stringify net slug c props Hnet Hpost.
  run. rewrite Hnet. cbn. rewrite Hpost.
  eexists. split; [reflexivity |]. repeat split.
Qed.

(** *** Results do not depend on the console *)

Lemma getPosts_console net c1 c2 :
  fst (Listing.getPosts net c1) = fst (Listing.getPosts net c2).
Proof.
  run. destruct (net Listing.posts_request) as [m | m | json];
    [reflexivity | reflexivity |].
  destruct json as [| | b | x | s | xs | props]; try reflexivity.
  destruct (truthy (own props "errors")); [reflexivity |].
  destruct (own props "data") as [| | b | x | s | xs | dprops]; try reflexivity.
  destruct (own dprops "posts"); reflexivity.
Qed.

Lemma generateStaticParams_console net c1 c2 :
  fst (Detail.generateStaticParams net c1) =
  fst (Detail.generateStaticParams net c2).
Proof.
  cbv [Detail.generateStaticParams try_catch bind ret throw emit console_warn
       console_error fetch res_json get Detail.call_map].
  destruct (net Detail.slugs_request) as [m | m | json];
    [reflexivity | reflexivity |].
  destruct json as [| | b | x | s | xs | props]; try reflexivity.
  destruct (negb _); [reflexivity |].
  destruct (own props "data") as [| | b | x | s | xs | dprops]; try reflexivity.
  destruct (own dprops "posts") as [| | b | x | s | xs | pprops]; try reflexivity.
  destruct (own pprops "nodes") as [| | b | x | s | xs | nprops]; try reflexivity.
  rewrite (map_eff_slug_param_console xs c1), (map_eff_slug_param_console xs c2).
  destruct (fst (Detail.map_eff Detail.slug_param xs [])); reflexivity.
Qed.

Lemma getPost_console net slug c1 c2 :
  fst (Detail.getPost net slug c1) = fst (Detail.getPost net slug c2).
Proof.
  run. destruct (net (Detail.post_request slug)) as [m | m | json];
    [reflexivity | reflexivity |].
  destruct json as [| | b | x | s | xs | props]; try reflexivity.
  destruct (truthy (own props "errors")); [reflexivity |].
  destruct (negb _); [reflexivity |].
  destruct (own props "data"); reflexivity.
Qed.

Lemma debug_getPost_console stringify net slug c1 c2 :
  fst (Debug.getPost stringify net slug c1) =
  fst (Debug.getPost stringify net slug c2).
Proof.
  run. destruct (net (Debug.post_request slug)) as [m | m | json];
    [reflexivity | reflexivity |].
  destruct json; reflexivity.
Qed.

Lemma twice_same {A} (m : Eff A) (c : console) :
  (forall c1 c2, fst (m c1) = fst (m c2)) ->
  fst (twice m c) = snd (twice m c).
Proof.
  intros H. unfold twice.
  pose proof (H c) as H1.
  destruct (m c) as [r1 c1]. specialize (H1 c1).
  destruct (m c1) as [r2 c2]. exact H1.
Qed.

(** C8. Each of the four fetchers, run twice in a row against the same
    backend, completes both times with the same result: the result is a
    function of the backend's answer alone and does not depend on what
    the first run left on the console. *)
Theorem repeated_fetch_same_result :
  forall (stringify : value -> string) (net : request -> outcome)
         (slug : string) (c : console),
    fst (twice (Listing.getPosts net) c) = snd (twice (Listing.getPosts net) c) /\
    fst (twice (Detail.generateStaticParams net) c) =
      snd (twice (Detail.generateStaticParams net) c) /\
    fst (twice (Detail.getPost net slug) c) =
      snd (twice (Detail.getPost net slug) c) /\
    fst (twice (Debug.getPost stringify net slug) c) =
      snd (twice (Debug.getPost stringify net slug) c).
Proof.
  intros stringify net slug c. repeat split; apply twice_same; intros c1 c2.
  - apply getPosts_console.
  - apply generateStaticParams_console.
  - apply getPost_console.
  - apply debug_getPost_console.
Qed.

(** C9 (amended). Given the same backend outcome, both [getPost]
    variants complete.  The diagnostic one returns the truthy
    [data.post] of a parsed response, errors or not, and [null]
    otherwise.  The standard one returns the same post, except when the
    response carries a truthy [errors]: then it returns [null] whatever
    [data] holds. *)
Theorem variants_agree_unless_errors :
  forall (stringify : value -> string) (net : request -> outcome)
         (slug : string) (c : console),
    net (Detail.post_request slug) = net (Debug.post_request slug) ->
    exists p c1 r,
      Detail.getPost net slug c = (Normal p, c1) /\
      Debug.getPost stringify net slug c = (Normal r, c) /\
      p = (if errors_reported (net (Debug.post_request slug))
           then VNull else Debug.post r) /\
      Debug.post r =
        match net (Debug.post_request slug) with
        | Parsed json =>
            if truthy (opt_get (opt_get json "data") "post")
            then opt_get (opt_get json "data") "post" else VNull
        | _ => VNull
        end.
Proof.
  intros stringify net slug c H. run. rewrite H.
  destruct (net (Debug.post_request slug)) as [m | m | json];
    [do 3 eexists; repeat split .. |].
  destruct json as [| | b | x | s | xs | props];
    try solve [do 3 eexists; repeat split].
  cbn [errors_reported opt_get].
  destruct (truthy (own props "errors")); [do 3 eexists; repeat split |].
  destruct (truthy (opt_get (own props "data") "post")) eqn:E; cbn [negb];
    [| do 3 eexists; repeat split].
  destruct (own props "data") as [| | b | x | s | xs | dprops];
    try discriminate E.
  do 3 eexists. repeat split.
Qed.

(** ** Further facts about malformed success responses *)

Lemma getPosts_data_missing net c props :
  net Listing.posts_request = Parsed (VObj props) ->
  truthy (own props "errors") = false ->
  nullish (own props "data") = true ->
  Listing.getPosts net c =
  (Normal (VArr []),
   c ++ [(ErrorLevel, [Text "Fetch Error:";
                       Caught (cannot_read (own props "data") "posts")])]).
Proof.
  intros Hnet He Hd. run. rewrite Hnet, He.
  destruct (own props "data"); try discriminate Hd; reflexivity.
Qed.

Lemma getPosts_posts_missing net c props dprops :
  net Listing.posts_request = Parsed (VObj props) ->
  truthy (own props "errors") = false ->
  own props "data" = VObj dprops ->
  nullish (own dprops "posts") = true ->
  Listing.getPosts net c =
  (Normal (VArr []),
   c ++ [(ErrorLevel, [Text "Fetch Error:";
                       Caught (cannot_read (own dprops "posts") "nodes")])]).
Proof.
  intros Hnet He Hd Hp. run. rewrite Hnet, He, Hd.
  destruct (own dprops "posts"); try discriminate Hp; reflexivity.
Qed.

Lemma getPosts_without_nodes net c props dprops pprops :
  net Listing.posts_request = Parsed (VObj props) ->
  truthy (own props "errors") = false ->
  own props "data" = VObj dprops ->
  own dprops "posts" = VObj pprops ->
  own pprops "nodes" = VUndefined ->
  Listing.getPosts net c = (Normal VUndefined, c).
Proof.
  intros Hnet He Hd Hp Hn. run. rewrite Hnet, He, Hd, Hp, Hn. reflexivity.
Qed.

Lemma respond_missing store s :
  find_by_slug s store = None ->
  respond store (Debug.post_request s) =
  Parsed (VObj [("data", VObj [("post", VNull)])]).
Proof.
  intros H. rewrite (respond_post store s Debug.post_request) by (right; reflexivity).
  rewrite H. reflexivity.
Qed.

(** ** Concrete runs *)

(** C2, as stated, fails at the diagnostic call site: the response
    carries an [errors] array and the result is found. *)
Lemma diagnostic_found_despite_errors :
  opt_get partial_success "errors" = graphql_errors /\
  partial_diagnosis =
    (Normal {| Debug.post := partial_post;
               Debug.error := Some graphql_errors_text;
               Debug.debugData := partial_success |}, []) /\
  found partial_post = true.
Proof. repeat split. Qed.

(** C3, as stated, fails at the diagnostic call site: one result holds
    a post and an error. *)
Lemma diagnostic_post_and_error_together :
  match fst partial_diagnosis with
  | Normal r =>
      (found (Debug.post r) && is_set (Debug.error r))%bool = true
  | Abrupt _ => False
  end.
Proof. reflexivity. Qed.

(** C9, as stated, fails: on one and the same response the standard
    variant is not found and the diagnostic one is. *)
Lemma variants_disagree_on_partial_success :
  fst (Detail.getPost (fun _ => Parsed partial_success) "hello-world" []) =
    Normal VNull /\
  found VNull = false /\
  match fst partial_diagnosis with
  | Normal r => Debug.post r = partial_post /\ found (Debug.post r) = true
  | Abrupt _ => False
  end.
Proof. repeat split. Qed.

(** C6, as stated, fails: the response reports errors and the result is
    not empty. *)
Lemma slugs_returned_despite_errors :
  truthy (opt_get partial_slugs "errors") = true /\
  Detail.generateStaticParams (fun _ => Parsed partial_slugs) [] =
    (Normal (VArr [VObj [("slug", VStr "hello-world")]]), []).
Proof. split; reflexivity. Qed.

Lemma partial_success_at_both_sites :
  (fun _ : request => Parsed partial_success) (Detail.post_request "hello-world")
    = Parsed partial_success /\
  opt_get partial_success "errors"
    = VArr [VObj [("message", VStr "Internal server error")]] /\
  (exists c',
      Detail.getPost (fun _ => Parsed partial_success) "hello-world" []
      = (Normal VNull, c')) /\
  (exists r,
      Debug.getPost (fun _ => graphql_errors_text)
                    (fun _ => Parsed partial_success) "hello-world" []
      = (Normal r, []) /\
      Debug.error r =
        Some ((fun _ => graphql_errors_text)
                (VArr [VObj [("message", VStr "Internal server error")]])) /\
      Debug.debugData r = partial_success /\
      found (Debug.post r)
      = truthy (opt_get (opt_get partial_success "data") "post")).
Proof.
  split; [reflexivity |]. split; [reflexivity |].
  apply (errors_present_outcomes
           (fun _ => graphql_errors_text) (fun _ => Parsed partial_success)
           "hello-world" [] partial_success
           [VObj [("message", VStr "Internal server error")]]);
    reflexivity.
Defined.

Lemma getBySlug_found_witness :
  find_by_slug "post-2" demo_store = Some (demo_item "2") /\
  exists (p : value) (c' : console),
    Detail.getPost (respond demo_store) "post-2" [] = (Normal p, c') /\
    found p = true /\
    slug (demo_item "2") = "post-2" /\
    opt_get p "id" = VStr (id (demo_item "2")) /\
    opt_get p "title" = VStr (title (demo_item "2")) /\
    opt_get p "content" = VStr (content (demo_item "2")) /\
    opt_get p "date" = VStr (date (demo_item "2")) /\
    opt_get p "excerpt" = VStr (excerpt (demo_item "2")) /\
    opt_get (opt_get (opt_get p "author") "node") "name" =
      VStr (author_name (demo_item "2")) /\
    opt_get p "featuredImage" =
      match cover (demo_item "2") with
      | Some u => VObj [("node", VObj [("sourceUrl", VStr u)])]
      | None => VNull
      end /\
    opt_get (opt_get p "categories") "nodes" =
      VArr (map (fun cat => VObj [("name", VStr (fst cat))])
                (categories (demo_item "2"))).
Proof.
  split; [reflexivity |].
  apply (getBySlug_found_field_for_field demo_store "post-2" (demo_item "2") []).
  reflexivity.
Defined.

Lemma diagnostic_missing_witness :
  respond demo_store (Debug.post_request "no-such-post")
    = Parsed (VObj [("data", VObj [("post", VNull)])]) /\
  exists r,
    Debug.getPost (fun _ => graphql_errors_text) (respond demo_store)
                  "no-such-post" [] = (Normal r, []) /\
    Debug.post r = VNull /\
    found (Debug.post r) = false /\
    Debug.debugData r = VObj [("data", VObj [("post", VNull)])].
Proof.
  split; [reflexivity |].
  apply (diagnostic_missing_carries_response
           (fun _ => graphql_errors_text) (respond demo_store)
           "no-such-post" [] [("data", VObj [("post", VNull)])]);
    reflexivity.
Defined.

Lemma variants_agree_witness :
  respond demo_store (Detail.post_request "post-1")
    = respond demo_store (Debug.post_request "post-1") /\
  exists p c1 r,
    Detail.getPost (respond demo_store) "post-1" [] = (Normal p, c1) /\
    Debug.getPost (fun _ => graphql_errors_text) (respond demo_store)
                  "post-1" [] = (Normal r, []) /\
    p = (if errors_reported (respond demo_store (Debug.post_request "post-1"))
         then VNull else Debug.post r) /\
    Debug.post r =
      match respond demo_store (Debug.post_request "post-1") with
      | Parsed json =>
          if truthy (opt_get (opt_get json "data") "post")
          then opt_get (opt_get json "data") "post" else VNull
      | _ => VNull
      end.
Proof.
  split; [reflexivity |].
  apply (variants_agree_unless_errors
           (fun _ => graphql_errors_text) (respond demo_store) "post-1" []).
  reflexivity.
Defined.

(** ** Further properties of the fetchers *)

(** X1. When [data.posts.nodes] is an array without [null] entries,
    [generateStaticParams] returns one parameter per node, in order, each
    holding that node's [slug] ([undefined] when the node has none); it
    sets no bound of its own, ignores [errors], and writes nothing. *)
Theorem static_params_follow_nodes :
  forall (net : request -> outcome) (c : console) (json : value)
         (xs : list value),
    net Detail.slugs_request = Parsed json ->
    opt_get (opt_get (opt_get json "data") "posts") "nodes" = VArr xs ->
    forallb (fun n => negb (nullish n)) xs = true ->
    Detail.generateStaticParams net c =
    (Normal (VArr (map (fun n => VObj [("slug", opt_get n "slug")]) xs)), c).
Proof.
  intros net c json xs Hnet Hnodes Hall.
  destruct (nodes_shape json (VArr xs) Hnodes) as (props & dprops & pprops & -> & Hd & Hp & Hn);
    [discriminate |].
  cbv [Detail.generateStaticParams try_catch bind ret throw emit console_warn
       console_error fetch res_json get Detail.call_map].
  rewrite Hnet. cbn [opt_get]. rewrite Hd. cbn [opt_get]. rewrite Hp.
  cbn [opt_get]. rewrite Hn. cbn [truthy negb].
  rewrite (map_eff_slug_param_ok xs c Hall). reflexivity.
Qed.

(** X2. One [null] among the nodes costs all of them: the callback
    throws on it, the handler takes over, and [generateStaticParams]
    returns the empty array with the error on the console. *)
Theorem static_params_lost_on_null_node :
  forall (net : request -> outcome) (c : console) (json : value)
         (xs : list value),
    net Detail.slugs_request = Parsed json ->
    opt_get (opt_get (opt_get json "data") "posts") "nodes" = VArr xs ->
    existsb nullish xs = true ->
    exists v,
      In v xs /\ nullish v = true /\
      Detail.generateStaticParams net c =
      (Normal (VArr []),
       c ++ [(ErrorLevel, [Text "[NextWP] Error fetching slugs for SSG:";
                           Caught (cannot_read v "slug")])]).
Proof.
  intros net c json xs Hnet Hnodes Hex.
  destruct (nodes_shape json (VArr xs) Hnodes) as (props & dprops & pprops & -> & Hd & Hp & Hn);
    [discriminate |].
  destruct (map_eff_slug_param_nullish xs c Hex) as (v & Hin & Hv & Hrun).
  exists v. split; [exact Hin |]. split; [exact Hv |].
  cbv [Detail.generateStaticParams try_catch bind ret throw emit console_warn
       console_error fetch res_json get Detail.call_map].
  rewrite Hnet. cbn [opt_get]. rewrite Hd. cbn [opt_get]. rewrite Hp.
  cbn [opt_get]. rewrite Hn. cbn [truthy negb].
  rewrite Hrun. reflexivity.
Qed.

Lemma debug_getPost_null_or_truthy_aux stringify net slug c :
  exists r,
    Debug.getPost stringify net slug c = (Normal r, c) /\
    (Debug.post r = VNull \/ truthy (Debug.post r) = true).
Proof.
  run. destruct (net (Debug.post_request slug)) as [m | m | json];
    [eexists; split; [reflexivity | left; reflexivity] .. |].
  destruct json as [| | b | x | s | xs | props];
    try (eexists; split; [reflexivity | left; reflexivity]).
  eexists; split; [reflexivity |]. cbn.
  destruct (truthy (opt_get (own props "data") "post")) eqn:E;
    [right; exact E | left; reflexivity].
Qed.

(** X3. What either [getPost] hands to its page as the post is [null]
    or a truthy value, never another falsy one: the page's [!post] test
    is a test for [null]. *)
Theorem getPost_null_or_truthy :
  forall (stringify : value -> string) (net : request -> outcome)
         (slug : string) (c : console),
    match fst (Detail.getPost net slug c) with
    | Normal p => p = VNull \/ truthy p = true
    | Abrupt _ => False
    end /\
    match fst (Debug.getPost stringify net slug c) with
    | Normal r => Debug.post r = VNull \/ truthy (Debug.post r) = true
    | Abrupt _ => False
    end.
Proof.
  intros stringify net slug c. split.
  - apply getPost_null_or_truthy_aux.
  - destruct (debug_getPost_null_or_truthy_aux stringify net slug c)
      as (r & -> & H).
    exact H.
Qed.

(** X4. The standard [getPost] writes exactly two console lines per
    call: first the announcement naming the slug, then either the
    success line, at log level and together with a truthy post, or one
    error line, together with [null]. *)
Theorem getPost_console_protocol :
  forall (net : request -> outcome) (slug : string) (c : console),
    exists (p : value) (l : level) (args : list console_arg),
      Detail.getPost net slug c =
      (Normal p,
       (c ++ [(LogLevel,
               [Text ("[NextWP] Fetching post for slug: "
                      ++ dq ++ slug ++ dq ++ "...")])])
         ++ [(l, args)]) /\
      ((l = LogLevel /\ truthy p = true /\
        args = [Text ("[NextWP] Successfully fetched " ++ dq ++ slug ++ dq)])
       \/ (l = ErrorLevel /\ p = VNull)).
Proof.
  intros net slug c. run.
  destruct (net (Detail.post_request slug)) as [m | m | json];
    [do 3 eexists; split; [reflexivity | right; split; reflexivity] .. |].
  destruct json as [| | b | x | s | xs | props];
    try solve [do 3 eexists; split; [reflexivity | right; split; reflexivity]].
  destruct (truthy (own props "errors"));
    [do 3 eexists; split; [reflexivity | right; split; reflexivity] |].
  destruct (truthy (opt_get (own props "data") "post")) eqn:E; cbn [negb];
    [| do 3 eexists; split; [reflexivity | right; split; reflexivity]].
  destruct (own props "data") as [| | b | x | s | xs | dprops];
    try discriminate E.
  do 3 eexists. split; [reflexivity |]. left. repeat split. exact E.
Qed.

(** X5. [getPosts] writes to the console only when it gives up: either
    it leaves the console as it was, or it appends one error line and
    returns the empty array. *)
Theorem getPosts_logs_only_with_empty_result :
  forall (net : request -> outcome) (c : console),
    (exists v, Listing.getPosts net c = (Normal v, c)) \/
    (exists args,
        Listing.getPosts net c =
        (Normal (VArr []), c ++ [(ErrorLevel, args)])).
Proof.
  intros net c. run.
  destruct (net Listing.posts_request) as [m | m | json];
    [right; eexists; reflexivity .. |].
  destruct json as [| | b | x | s | xs | props];
    try solve [right; eexists; reflexivity].
  destruct (truthy (own props "errors")); [right; eexists; reflexivity |].
  destruct (own props "data") as [| | b | x | s | xs | dprops];
    try solve [right; eexists; reflexivity].
  destruct (own dprops "posts");
    solve [right; eexists; reflexivity | left; eexists; reflexivity].
Qed.

(** X6. The debug payload of the diagnostic [getPost] is the parsed
    response whenever one was read; after a transport failure, but also
    after a body that did not parse or was a bare [null], it is the
    fixed object saying that the network request failed. *)
Theorem debug_payload_is_response_or_placeholder :
  forall (stringify : value -> string) (net : request -> outcome)
         (slug : string) (c : console),
    exists r,
      Debug.getPost stringify net slug c = (Normal r, c) /\
      Debug.debugData r =
        match net (Debug.post_request slug) with
        | Parsed json =>
            if nullish json
            then VObj [("error", VStr "Network request failed")]
            else json
        | _ => VObj [("error", VStr "Network request failed")]
        end.
Proof.
  intros stringify net slug c. run.
  destruct (net (Debug.post_request slug)) as [m | m | json];
    [eexists; split; reflexivity .. |].
  destruct json; eexists; split; reflexivity.
Qed.

Lemma getPosts_nodes_as_delivered net c json :
  net Listing.posts_request = Parsed json ->
  truthy (opt_get json "errors") = false ->
  nullish (opt_get (opt_get json "data") "posts") = false ->
  Listing.getPosts net c =
  (Normal (opt_get (opt_get (opt_get json "data") "posts") "nodes"), c).
Proof.
  intros Hnet He Hp. run. rewrite Hnet.
  destruct json as [| | b | x | s | xs | props]; try discriminate Hp.
  cbn [opt_get] in *. rewrite He.
  destruct (own props "data") as [| | b | x | s | xs | dprops];
    try discriminate Hp.
  cbn [opt_get] in *.
  destruct (own dprops "posts"); try discriminate Hp; reflexivity.
Qed.

(** X7. [getPosts] hands on [data.posts.nodes] as delivered: when the
    response has no truthy [errors] and [data.posts] is there, the
    result is whatever sits under [nodes], neither cut to twelve nor
    checked to be an array, and nothing is written. *)
Theorem getPosts_passes_nodes_through :
  forall (net : request -> outcome) (c : console) (json : value),
    net Listing.posts_request = Parsed json ->
    truthy (opt_get json "errors") = false ->
    nullish (opt_get (opt_get json "data") "posts") = false ->
    Listing.getPosts net c =
    (Normal (opt_get (opt_get (opt_get json "data") "posts") "nodes"), c).
Proof.
  intros net c json. apply getPosts_nodes_as_delivered.
Qed.

(** ** The page components *)

Lemma silent_ret {A} (a : A) : silent (ret a).
Proof. exists (Normal a). reflexivity. Qed.

Lemma silent_throw {A} (e : exn) : silent (@throw A e).
Proof. exists (Abrupt e). reflexivity. Qed.

Lemma silent_lift {A} (r : completion A) : silent (lift r).
Proof. exists r. reflexivity. Qed.

Lemma silent_get v k : silent (get v k).
Proof. destruct v; first [apply silent_ret | apply silent_throw]. Qed.

Lemma silent_bind {A B} (m : Eff A) (k : A -> Eff B) :
  silent m -> (forall a, silent (k a)) -> silent (bind m k).
Proof.
  intros [[a | e] Hm] Hk.
  - destruct (Hk a) as [r Hr]. exists r. intros c. unfold bind.
    rewrite Hm. apply Hr.
  - exists (Abrupt e). intros c. unfold bind. rewrite Hm. reflexivity.
Qed.

Ltac silence :=
  repeat first
    [ apply silent_ret | apply silent_throw | apply silent_lift
    | apply silent_get
    | apply silent_bind; [| intros ?]
    | match goal with
      | |- silent (if ?b then _ else _) => destruct b
      | |- silent (match ?x with _ => _ end) => destruct x
      end ].

Lemma bind_run {A B} (m : Eff A) (k : A -> Eff B) (c : console) :
  bind m k c =
  match m c with
  | (Normal a, c') => k a c'
  | (Abrupt e, c') => (Abrupt e, c')
  end.
Proof. reflexivity. Qed.

Lemma get_present v k :
  nullish v = false -> get v k = ret (opt_get v k).
Proof. destruct v; intros H; try discriminate H; reflexivity. Qed.

Lemma truthy_not_nullish v : truthy v = true -> nullish v = false.
Proof. destruct v; intros H; try discriminate H; reflexivity. Qed.

Section PageFacts.

Variable charAt0 : string -> string.
Variable long_date : string -> string.
Variable long_date_other : value -> completion string.
Variable to_string_other : value -> completion string.
Variable gt_zero_other : value -> completion bool.
Variable stringify : value -> string.
Variable stringify_pretty : value -> string.

Lemma silent_index0 v : silent (index0 charAt0 v).
Proof. unfold index0. silence. Qed.

Lemma silent_category_label post : silent (category_label charAt0 post).
Proof.
  unfold category_label.
  repeat first [apply silent_index0 | progress silence].
Qed.

Lemma silent_render_article post :
  silent (render_article charAt0 long_date long_date_other post).
Proof.
  unfold render_article, article_picture, author_or_anonymous, formatDate.
  repeat first [apply silent_category_label | apply silent_index0
               | progress silence].
Qed.

Lemma silent_PostCard post :
  silent (PostCard charAt0 long_date long_date_other post).
Proof.
  unfold PostCard, card_picture, author_initial, author_or_anonymous, formatDate.
  repeat first [apply silent_category_label | apply silent_index0
               | progress silence].
Qed.

(** X8. The standard detail page answers 404 exactly when [getPost]
    returned [null], which is the case after a transport failure, after
    a body that did not parse, for a response with truthy [errors] and
    for one without a truthy [data.post], all alike; the page itself
    writes nothing to the console. *)
Theorem BlogPost_not_found_cases :
  forall (net : request -> outcome) (slug : string) (c : console),
    (fst (BlogPost charAt0 long_date long_date_other net slug c)
       = Normal NotFoundPage
     <-> fst (Detail.getPost net slug c) = Normal VNull) /\
    snd (BlogPost charAt0 long_date long_date_other net slug c)
      = snd (Detail.getPost net slug c) /\
    match net (Detail.post_request slug) with
    | TransportFailure _ | Unparsable _ =>
        fst (BlogPost charAt0 long_date long_date_other net slug c)
          = Normal NotFoundPage
    | Parsed json =>
        if (truthy (opt_get json "errors")
            || negb (truthy (opt_get (opt_get json "data") "post")))%bool
        then fst (BlogPost charAt0 long_date long_date_other net slug c)
               = Normal NotFoundPage
        else fst (BlogPost charAt0 long_date long_date_other net slug c)
               <> Normal NotFoundPage
    end.
Proof.
  intros net slug c.
  assert (Hpage :
    forall p c',
      Detail.getPost net slug c = (Normal p, c') ->
      (fst (BlogPost charAt0 long_date long_date_other net slug c)
         = Normal NotFoundPage <-> p = VNull) /\
      snd (BlogPost charAt0 long_date long_date_other net slug c) = c').
  { intros p c' Hget.
    pose proof (getPost_null_or_truthy_aux net slug c) as Hp.
    rewrite Hget in Hp. cbn [fst] in Hp.
    unfold BlogPost. rewrite bind_run, Hget.
    destruct Hp as [-> | Ht].
    - cbn. split; [split; reflexivity | reflexivity].
    - rewrite Ht. cbn [negb]. rewrite bind_run.
      destruct (silent_render_article p) as [r Hr]. rewrite Hr.
      destruct r as [a | e]; cbn [fst snd];
        (split; [split; [discriminate | intros ->; discriminate Ht]
                | reflexivity]). }
  pose proof (getPost_completes net slug c) as Hc. unfold completes in Hc.
  destruct (Detail.getPost net slug c) as [[p | e] c'] eqn:Hget;
    [| discriminate Hc].
  destruct (Hpage p c' eq_refl) as [Hiff Hsnd].
  split; [| split; [exact Hsnd |]].
  - cbn [fst]. rewrite Hiff. split; [intros ->; reflexivity | congruence].
  - assert (Hval :
      p = match net (Detail.post_request slug) with
          | Parsed json =>
              if (truthy (opt_get json "errors")
                  || negb (truthy (opt_get (opt_get json "data") "post")))%bool
              then VNull else opt_get (opt_get json "data") "post"
          | _ => VNull
          end).
    { revert Hget. run.
      destruct (net (Detail.post_request slug)) as [m | m | json];
        [intros [= <- _]; reflexivity .. |].
      destruct json as [| | b | x | s | xs | props];
        try (intros [= <- _]; reflexivity).
      cbn [opt_get].
      destruct (truthy (own props "errors")); cbn [orb];
        [intros [= <- _]; reflexivity |].
      destruct (truthy (opt_get (own props "data") "post")) eqn:E; cbn [negb];
        [| intros [= <- _]; reflexivity].
      destruct (own props "data") as [| | b | x | s | xs | dprops];
        try discriminate E.
      intros [= <- _]. reflexivity. }
    destruct (net (Detail.post_request slug)) as [m | m | json];
      [apply Hiff; exact Hval .. |].
    destruct (truthy (opt_get json "errors")
              || negb (truthy (opt_get (opt_get json "data") "post")))%bool eqn:E.
    + apply Hiff. exact Hval.
    + intros H. apply Hiff in H. rewrite H in Hval.
      apply orb_false_iff in E. destruct E as [_ E].
      apply negb_false_iff in E. rewrite <- Hval in E. discriminate E.
Qed.


Ltac split_own :=
  repeat match goal with
         | |- context [match own ?p ?k with _ => _ end] =>
             destruct (own p k) eqn:?
         | H : context [match own ?p ?k with _ => _ end] |- _ =>
             destruct (own p k) eqn:?
         end.

Lemma article_picture_shown post c :
  nullish post = false ->
  exists s, article_picture post c = (Normal s, c).
Proof.
  intros Hpost.
  destruct post; try discriminate Hpost;
    cbv [article_picture bind ret get throw opt_get];
    split_own; cbn [truthy]; try (eexists; reflexivity);
    match goal with
    | |- context [if truthy ?x then _ else _] => destruct (truthy x)
    end; eexists; reflexivity.
Qed.

Lemma category_label_result post c :
  nullish post = false ->
  if (negb (nullish (opt_get post "categories"))
      && nullish (opt_get (opt_get post "categories") "nodes"))%bool
  then category_label charAt0 post c =
       (Abrupt (cannot_read (opt_get (opt_get post "categories") "nodes") "0"), c)
  else exists s, category_label charAt0 post c = (Normal s, c).
Proof.
  intros Hpost.
  destruct post as [| | b | x | s | xs | props]; try discriminate Hpost;
    try (eexists; reflexivity).
  cbv [category_label bind ret get throw opt_get index0].
  destruct (own props "categories") as [| | b | x | s | xs | cprops];
    cbn [nullish negb andb]; try (eexists; reflexivity).
  destruct (own cprops "nodes") as [| | b | x | s | xs | nprops];
    cbn [nullish negb andb truthy]; try reflexivity; try (eexists; reflexivity).
  - destruct (s =? EmptyString); cbn [truthy]; [eexists; reflexivity |].
    destruct (negb (charAt0 s =? EmptyString)); eexists; reflexivity.
  - destruct (truthy (hd VUndefined xs)) eqn:E; [| eexists; reflexivity].
    destruct (hd VUndefined xs); try discriminate E; eexists; reflexivity.
  - destruct (truthy (own nprops "0")) eqn:E; [| eexists; reflexivity].
    destruct (own nprops "0"); try discriminate E; eexists; reflexivity.
Qed.

Lemma render_article_result post d c :
  opt_get post "date" = VStr d ->
  if (negb (nullish (opt_get post "categories"))
      && nullish (opt_get (opt_get post "categories") "nodes"))%bool
  then render_article charAt0 long_date long_date_other post c =
       (Abrupt (cannot_read (opt_get (opt_get post "categories") "nodes") "0"), c)
  else exists a,
      render_article charAt0 long_date long_date_other post c = (Normal a, c).
Proof.
  intros Hd.
  assert (Hpost : nullish post = false)
    by (destruct post; try discriminate Hd; reflexivity).
  pose proof (category_label_result post c Hpost) as Hcat.
  destruct (article_picture_shown post c Hpost) as [pic Hpic].
  unfold render_article. rewrite bind_run, Hpic, bind_run.
  destruct (negb (nullish (opt_get post "categories"))
            && nullish (opt_get (opt_get post "categories") "nodes"))%bool.
  - rewrite Hcat. reflexivity.
  - destruct Hcat as [s ->].
    unfold author_or_anonymous.
    rewrite !(get_present post _ Hpost).
    cbv [bind ret]. rewrite Hd. cbn [formatDate ret]. eexists; reflexivity.
Qed.

(** X9. Once [getPost] has returned a post with a string [date], the
    standard detail page throws exactly when the post has a
    [categories] value without [nodes] under it: [?.] guards
    [categories] only, so [nodes[0]] is read from [undefined] or
    [null].  Otherwise the article is rendered. *)
Theorem BlogPost_raises_iff_categories_without_nodes :
  forall (net : request -> outcome) (slug : string) (c c' : console)
         (post : value) (d : string),
    Detail.getPost net slug c = (Normal post, c') ->
    opt_get post "date" = VStr d ->
    if (negb (nullish (opt_get post "categories"))
        && nullish (opt_get (opt_get post "categories") "nodes"))%bool
    then BlogPost charAt0 long_date long_date_other net slug c =
         (Abrupt (cannot_read (opt_get (opt_get post "categories") "nodes") "0"),
          c')
    else exists a,
        BlogPost charAt0 long_date long_date_other net slug c =
        (Normal (ArticlePage a), c').
Proof.
  intros net slug c c' post d Hget Hd.
  pose proof (render_article_result post d c' Hd) as Hr.
  unfold BlogPost. rewrite bind_run, Hget.
  assert (Ht : truthy post = true)
    by (destruct post; try discriminate Hd; reflexivity).
  rewrite Ht. cbn [negb]. rewrite bind_run.
  destruct (negb (nullish (opt_get post "categories"))
            && nullish (opt_get (opt_get post "categories") "nodes"))%bool.
  - rewrite Hr. reflexivity.
  - destruct Hr as [a ->]. exists a. reflexivity.
Qed.

Lemma getPost_on_item store s it c :
  find_by_slug s store = Some it ->
  Detail.getPost (respond store) s c =
  (Normal (detail_view it),
   (c ++ [(LogLevel,
           [Text ("[NextWP] Fetching post for slug: " ++ dq ++ s ++ dq ++ "...")])])
     ++ [(LogLevel, [Text ("[NextWP] Successfully fetched " ++ dq ++ s ++ dq)])]).
Proof.
  intros Hfind. run.
  rewrite (respond_post store s Detail.post_request) by (left; reflexivity).
  rewrite Hfind. reflexivity.
Qed.

Lemma render_article_of_item it c :
  render_article charAt0 long_date long_date_other (detail_view it) c =
  (Normal (item_article long_date it), c).
Proof.
  destruct it as [i sl t b e d a [u |] [| cat cs]];
    cbv [render_article article_picture category_label author_or_anonymous
         formatDate index0 bind ret get throw item_article first_category
         shown_author];
    cbn; try destruct (u =? EmptyString); destruct (a =? EmptyString);
    reflexivity.
Qed.

(** X10. For a slug the content service holds, the standard detail page
    renders the article of that item: its title, body markup, formatted
    date, the cover when it has a non-empty URL, the name of its first
    category only, and the author's name or, when that is empty,
    [Anonymous]. *)
Theorem BlogPost_renders_item :
  forall (store : list ContentItem) (s : string) (it : ContentItem)
         (c : console),
    find_by_slug s store = Some it ->
    exists c',
      BlogPost charAt0 long_date long_date_other (respond store) s c =
      (Normal (ArticlePage (item_article long_date it)), c').
Proof.
  intros store s it c Hfind. eexists.
  unfold BlogPost. rewrite bind_run, (getPost_on_item store s it c Hfind).
  cbn [detail_view truthy negb]. rewrite bind_run.
  change (VObj _) with (detail_view it).
  rewrite render_article_of_item. reflexivity.
Qed.

Lemma generateStaticParams_on_service store c :
  Detail.generateStaticParams (respond store) c =
  (Normal (VArr (map slug_view (firstn 100 store))), c).
Proof.
  run. rewrite respond_slugs. cbn -[firstn].
  rewrite map_eff_slug_views. reflexivity.
Qed.

Lemma find_by_slug_of_member store it :
  In it store ->
  exists it', find_by_slug (slug it) store = Some it' /\ slug it' = slug it.
Proof.
  intros Hin. unfold find_by_slug.
  destruct (find (fun x => slug x =? slug it) store) as [it' |] eqn:E.
  - exists it'. split; [reflexivity |].
    apply find_some in E. destruct E as [_ E]. apply String.eqb_eq in E. exact E.
  - pose proof (find_none _ _ E it Hin) as H. cbn in H.
    rewrite String.eqb_refl in H. discriminate H.
Qed.

Lemma In_firstn_In {A} n (l : list A) x : In x (firstn n l) -> In x l.
Proof.
  revert l. induction n as [| n IH]; intros [| y l] H; try contradiction.
  cbn [firstn] in H. destruct H as [-> | H]; [left; reflexivity |].
  right. apply IH. exact H.
Qed.

(** X11. Every route parameter that [generateStaticParams] enumerates
    from the content service leads the standard detail page, run
    against the same service, to an article of an item with that slug:
    never to the 404 page and never to an exception. *)
Theorem enumerated_slugs_render :
  forall (store : list ContentItem) (c0 c1 c : console)
         (params : list value) (s : string),
    Detail.generateStaticParams (respond store) c0 = (Normal (VArr params), c1) ->
    In (VObj [("slug", VStr s)]) params ->
    exists it c',
      In it store /\ slug it = s /\
      BlogPost charAt0 long_date long_date_other (respond store) s c =
      (Normal (ArticlePage (item_article long_date it)), c').
Proof.
  intros store c0 c1 c params s Hgen Hin.
  rewrite generateStaticParams_on_service in Hgen.
  assert (Hparams : params = map slug_view (firstn 100 store)) by congruence.
  rewrite Hparams in Hin. clear Hgen Hparams.
  apply in_map_iff in Hin. destruct Hin as (it & Hview & Hit).
  injection Hview as <-. apply In_firstn_In in Hit.
  destruct (find_by_slug_of_member store it Hit) as (it' & Hfind & Hslug).
  exists it'.
  unfold BlogPost. rewrite bind_run, (getPost_on_item store _ it' c Hfind).
  cbn [detail_view truthy negb]. rewrite bind_run.
  change (VObj _) with (detail_view it').
  rewrite render_article_of_item. eexists.
  split; [| split; [exact Hslug | reflexivity]].
  unfold find_by_slug in Hfind. apply find_some in Hfind. apply Hfind.
Qed.

(** X12. When the diagnostic [getPost] has no post, the debug page never
    answers 404 and never throws: it shows the requested slug, the
    endpoint, the pretty-printed debug payload and an error box.  The
    box holds the failure's message after a transport failure or a body
    that did not parse, the engine's message for a bare [null] body, and
    the serialized [errors] when the response reports some; it is left
    out when that text is empty and when the response reports no
    errors. *)
Theorem DebugBlogPost_diagnoses_missing_post :
  forall (net : request -> outcome) (slug : string) (c : console),
    match net (Debug.post_request slug) with
    | TransportFailure m | Unparsable m =>
        DebugBlogPost charAt0 long_date long_date_other stringify
                      stringify_pretty net slug c =
        (Normal (DebugView
           {| requested := slug;
              endpoint := "https://dev-dp-wp-ap.pantheonsite.io/wp/graphql";
              raw := stringify_pretty
                       (VObj [("error", VStr "Network request failed")]);
              error_box :=
                if m =? EmptyString then Hidden (VStr EmptyString)
                else Shown m |}), c)
    | Parsed json =>
        if truthy (opt_get (opt_get json "data") "post") then True
        else if nullish json then
          DebugBlogPost charAt0 long_date long_date_other stringify
                        stringify_pretty net slug c =
          (Normal (DebugView
             {| requested := slug;
                endpoint := "https://dev-dp-wp-ap.pantheonsite.io/wp/graphql";
                raw := stringify_pretty
                         (VObj [("error", VStr "Network request failed")]);
                error_box :=
                  Shown ("Cannot read properties of "
                         ++ (match json with
                             | VNull => "null"
                             | _ => "undefined"
                             end)
                         ++ " (reading 'data')")%string |}), c)
        else
          DebugBlogPost charAt0 long_date long_date_other stringify
                        stringify_pretty net slug c =
          (Normal (DebugView
             {| requested := slug;
                endpoint := "https://dev-dp-wp-ap.pantheonsite.io/wp/graphql";
                raw := stringify_pretty json;
                error_box :=
                  if truthy (opt_get json "errors") then
                    if stringify (opt_get json "errors") =? EmptyString
                    then Hidden (VStr EmptyString)
                    else Shown (stringify (opt_get json "errors"))
                  else Hidden VUndefined |}), c)
    end.
Proof.
  intros net slug c. unfold DebugBlogPost. rewrite bind_run. run.
  destruct (net (Debug.post_request slug)) as [m | m | json].
  - cbn. destruct (m =? EmptyString) eqn:E; [| reflexivity].
    apply String.eqb_eq in E. subst m. reflexivity.
  - cbn. destruct (m =? EmptyString) eqn:E; [| reflexivity].
    apply String.eqb_eq in E. subst m. reflexivity.
  - destruct json as [| | b | x | s | xs | props]; try reflexivity.
    cbn [opt_get nullish Debug.post].
    destruct (truthy (opt_get (own props "data") "post")) eqn:E;
      [exact I |].
    cbn [truthy negb Debug.error Debug.debugData error_slot].
    destruct (truthy (own props "errors")); [| reflexivity].
    cbn [error_slot].
    destruct (stringify (own props "errors") =? EmptyString) eqn:Es;
      [| reflexivity].
    apply String.eqb_eq in Es. rewrite Es. reflexivity.
Qed.

Lemma render_article_fields post d c :
  opt_get post "date" = VStr d ->
  (negb (nullish (opt_get post "categories"))
   && nullish (opt_get (opt_get post "categories") "nodes"))%bool = false ->
  exists a,
    render_article charAt0 long_date long_date_other post c = (Normal a, c) /\
    art_title a = opt_get post "title" /\
    art_html a = opt_get post "content" /\
    art_date a = long_date d /\
    art_author a =
      (if truthy (opt_get (opt_get (opt_get post "author") "node") "name")
       then opt_get (opt_get (opt_get post "author") "node") "name"
       else VStr "Anonymous").
Proof.
  intros Hd Hcond.
  assert (Hpost : nullish post = false)
    by (destruct post; try discriminate Hd; reflexivity).
  pose proof (category_label_result post c Hpost) as Hcat.
  rewrite Hcond in Hcat. destruct Hcat as [s Hcat].
  destruct (article_picture_shown post c Hpost) as [pic Hpic].
  unfold render_article. rewrite bind_run, Hpic, bind_run, Hcat.
  unfold author_or_anonymous.
  rewrite !(get_present post _ Hpost).
  cbv [bind ret]. rewrite Hd. cbn [formatDate ret].
  eexists. split; [reflexivity |]. repeat split.
Qed.

(** X13. A response that carries truthy [errors] together with a
    [data.post] that has a string [date] sends the two detail pages
    apart.  The standard page answers 404.  The debug page never shows
    its diagnosis: it renders the post as an article, with the post's
    title, body, date and author, or throws when the post has
    [categories] without [nodes].  So the reported errors are shown on
    neither page. *)
Theorem pages_part_when_errors_accompany_post :
  forall (net : request -> outcome) (slug : string) (c : console)
         (json : value) (d : string),
    net (Detail.post_request slug) = Parsed json ->
    net (Debug.post_request slug) = Parsed json ->
    truthy (opt_get json "errors") = true ->
    opt_get (opt_get (opt_get json "data") "post") "date" = VStr d ->
    fst (BlogPost charAt0 long_date long_date_other net slug c)
      = Normal NotFoundPage /\
    if (negb (nullish (opt_get (opt_get (opt_get json "data") "post")
                               "categories"))
        && nullish (opt_get (opt_get (opt_get (opt_get json "data") "post")
                                     "categories") "nodes"))%bool
    then
      DebugBlogPost charAt0 long_date long_date_other stringify
                    stringify_pretty net slug c =
      (Abrupt (cannot_read
                 (opt_get (opt_get (opt_get (opt_get json "data") "post")
                                   "categories") "nodes") "0"), c)
    else
      exists a,
        DebugBlogPost charAt0 long_date long_date_other stringify
                      stringify_pretty net slug c =
        (Normal (DebugArticle a), c) /\
        art_title a = opt_get (opt_get (opt_get json "data") "post") "title" /\
        art_html a = opt_get (opt_get (opt_get json "data") "post") "content" /\
        art_date a = long_date d /\
        art_author a =
          (if truthy (opt_get (opt_get (opt_get (opt_get (opt_get json "data")
                                 "post") "author") "node") "name")
           then opt_get (opt_get (opt_get (opt_get (opt_get json "data")
                                 "post") "author") "node") "name"
           else VStr "Anonymous").
Proof.
  intros net slug c json d H1 H2 He Hd.
  destruct json as [| | b | x | s | xs | props]; try discriminate He.
  cbn [opt_get] in *.
  set (post := opt_get (own props "data") "post") in *.
  assert (Hp : truthy post = true)
    by (destruct post; try discriminate Hd; reflexivity).
  split.
  - unfold BlogPost. rewrite bind_run. run. rewrite H1, He. reflexivity.
  - assert (Hdebug :
      DebugBlogPost charAt0 long_date long_date_other stringify
                    stringify_pretty net slug c =
      (a <- render_article charAt0 long_date long_date_other post ;;
       ret (DebugArticle a)) c).
    { unfold DebugBlogPost. rewrite bind_run. run. rewrite H2.
      cbn [Debug.post]. fold post. rewrite Hp, Hp. reflexivity. }
    rewrite Hdebug, bind_run.
    pose proof (render_article_result post d c Hd) as Hr.
    destruct (negb (nullish (opt_get post "categories"))
              && nullish (opt_get (opt_get post "categories") "nodes"))%bool
      eqn:Hcond.
    + rewrite Hr. reflexivity.
    + destruct (render_article_fields post d c Hd Hcond)
        as (a & -> & Ht & Hh & Hdt & Ha).
      exists a. repeat split; assumption.
Qed.

(** *** The listing page *)

Lemma Home_of_posts net c posts c' :
  Listing.getPosts net c = (Normal posts, c') ->
  Home to_string_other gt_zero_other net c =
  (some <- length_gt_zero gt_zero_other posts ;;
   if some then
     (links <- array_map "posts.map" posts (post_link to_string_other) ;;
      ret (Grid links))
   else ret EmptyState) c'.
Proof. intros H. unfold Home. rewrite bind_run, H. reflexivity. Qed.

(** X14. After a transport failure, a body that did not parse, a
    response with truthy [errors], or one whose [data] or [data.posts]
    is missing, the listing page shows its empty state: an outage looks
    like an empty blog. *)
Theorem Home_empty_state_on_failure :
  forall (net : request -> outcome) (c : console),
    match net Listing.posts_request with
    | TransportFailure m =>
        Home to_string_other gt_zero_other net c =
        (Normal EmptyState,
         c ++ [(ErrorLevel, [Text "Fetch Error:"; Caught (TypeError m)])])
    | Unparsable m =>
        Home to_string_other gt_zero_other net c =
        (Normal EmptyState,
         c ++ [(ErrorLevel, [Text "Fetch Error:"; Caught (SyntaxError m)])])
    | Parsed json =>
        if truthy (opt_get json "errors") then
          Home to_string_other gt_zero_other net c =
          (Normal EmptyState,
           c ++ [(ErrorLevel,
                  [Text "GraphQL Errors:"; Dump (opt_get json "errors")])])
        else if (nullish (opt_get json "data")
                 || nullish (opt_get (opt_get json "data") "posts"))%bool then
          fst (Home to_string_other gt_zero_other net c) = Normal EmptyState
        else True
    end.
Proof.
  intros net c. unfold Home. rewrite bind_run. run.
  destruct (net Listing.posts_request) as [m | m | json];
    [reflexivity | reflexivity |].
  destruct json as [| | b | x | s | xs | props]; try reflexivity.
  cbn [opt_get].
  destruct (truthy (own props "errors")); [reflexivity |].
  destruct (own props "data") as [| | b | x | s | xs | dprops];
    try reflexivity.
  cbn [opt_get nullish orb].
  destruct (own dprops "posts"); cbn [nullish]; first [reflexivity | exact I].
Qed.

(** X15. When the response has [data.posts] but no [nodes] under it (or
    a [null] there), [getPosts] hands [undefined] (or [null]) to the
    listing page, and the page throws on reading its [length]. *)
Theorem Home_raises_without_nodes :
  forall (net : request -> outcome) (c : console) (json : value),
    net Listing.posts_request = Parsed json ->
    truthy (opt_get json "errors") = false ->
    nullish (opt_get (opt_get json "data") "posts") = false ->
    nullish (opt_get (opt_get (opt_get json "data") "posts") "nodes") = true ->
    Home to_string_other gt_zero_other net c =
    (Abrupt (cannot_read
               (opt_get (opt_get (opt_get json "data") "posts") "nodes")
               "length"), c).
Proof.
  intros net c json Hnet He Hp Hn.
  rewrite (Home_of_posts net c _ c
             (getPosts_nodes_as_delivered net c json Hnet He Hp)).
  rewrite bind_run.
  destruct (opt_get (opt_get (opt_get json "data") "posts") "nodes");
    try discriminate Hn; reflexivity.
Qed.

Lemma each_post_link_of_items items c :
  each (post_link to_string_other) (map listing_view items) c =
  (Normal (map item_link items), c).
Proof.
  revert c. induction items as [| it items IH]; intros c; [reflexivity |].
  cbn [map each]. rewrite bind_run. cbn. rewrite bind_run, IH. reflexivity.
Qed.

Lemma getPosts_on_service store c :
  Listing.getPosts (respond store) c =
  (Normal (VArr (map listing_view (firstn 12 store))), c).
Proof. run. rewrite respond_posts. reflexivity. Qed.

(** X16. Against the content service the listing page shows its empty
    state when the service holds nothing, and otherwise one grid entry
    per delivered item, in the service's order: linked to [/blog/] plus
    the item's slug, keyed by its id, and carrying the item as the
    card's post. *)
Theorem Home_grid_of_items :
  forall (store : list ContentItem) (c : console),
    Home to_string_other gt_zero_other (respond store) c =
    (Normal match firstn 12 store with
            | [] => EmptyState
            | _ :: _ => Grid (map item_link (firstn 12 store))
            end, c).
Proof.
  intros store c.
  rewrite (Home_of_posts _ c _ c (getPosts_on_service store c)).
  rewrite bind_run.
  destruct (firstn 12 store) as [| it items] eqn:E; [reflexivity |].
  cbn [map length_gt_zero ret array_map]. rewrite bind_run.
  change (listing_view it :: map listing_view items)
    with (map listing_view (it :: items)).
  rewrite each_post_link_of_items. reflexivity.
Qed.

Lemma each_post_link_nullish xs c :
  existsb nullish xs = true ->
  completes (each (post_link to_string_other) xs c) = false.
Proof.
  revert c. induction xs as [| x xs IH]; intros c H; [discriminate H |].
  cbn [existsb] in H. cbn [each]. rewrite bind_run.
  destruct (nullish x) eqn:Hx.
  - destruct x; try discriminate Hx; reflexivity.
  - cbn [orb] in H.
    destruct (post_link to_string_other x c) as [[l | e] c1]; [| reflexivity].
    rewrite bind_run. specialize (IH c1 H). unfold completes in IH.
    destruct (each (post_link to_string_other) xs c1) as [[ls | e] c2];
      [discriminate IH | reflexivity].
Qed.

(** X17. A [null] among the delivered nodes makes the listing page
    throw: unlike [generateStaticParams], the page has no handler around
    its [map]. *)
Theorem Home_raises_on_null_node :
  forall (net : request -> outcome) (c : console) (json : value)
         (xs : list value),
    net Listing.posts_request = Parsed json ->
    truthy (opt_get json "errors") = false ->
    opt_get (opt_get (opt_get json "data") "posts") "nodes" = VArr xs ->
    existsb nullish xs = true ->
    completes (Home to_string_other gt_zero_other net c) = false.
Proof.
  intros net c json xs Hnet He Hn Hex.
  assert (Hp : nullish (opt_get (opt_get json "data") "posts") = false).
  { destruct (opt_get (opt_get json "data") "posts"); try reflexivity;
      discriminate Hn. }
  rewrite (Home_of_posts net c _ c
             (getPosts_nodes_as_delivered net c json Hnet He Hp)).
  rewrite Hn, bind_run.
  destruct xs as [| x xs]; [discriminate Hex |].
  cbn [length_gt_zero ret array_map]. rewrite bind_run.
  pose proof (each_post_link_nullish (x :: xs) c Hex) as H.
  unfold completes in *.
  destruct (each (post_link to_string_other) (x :: xs) c) as [[ls | e] c1];
    [discriminate H | reflexivity].
Qed.

(** X18. For an item as the content service delivers it to the listing,
    [PostCard] never throws and shows the item's title, excerpt and
    formatted date, the cover unless it is missing or empty, the name
    of the first category only, the author's name or [Anonymous], and
    the author's first character or [A]. *)
Theorem PostCard_of_item :
  forall (it : ContentItem) (c : console),
    PostCard charAt0 long_date long_date_other (listing_view it) c =
    (Normal (item_card charAt0 long_date it), c).
Proof.
  intros [i sl t b e d a [u |] [| cat cs]] c;
    cbv [PostCard card_picture category_label author_initial
         author_or_anonymous formatDate index0 bind ret get throw item_card
         first_category shown_author];
    cbn; try destruct (u =? EmptyString); destruct (a =? EmptyString);
    cbn; destruct (charAt0 a =? EmptyString); reflexivity.
Qed.

(** X19. [PostCard] throws whenever the author's name is there but is
    not a string: [?.] lets the value through and [charAt] is no
    function on it. *)
Theorem PostCard_raises_on_non_string_name :
  forall (post : value) (c : console),
    text_or_absent (opt_get (opt_get (opt_get post "author") "node") "name")
      = false ->
    completes (PostCard charAt0 long_date long_date_other post c) = false.
Proof.
  intros post c Hname.
  assert (Hinit : forall c', completes (author_initial charAt0 post c') = false).
  { intros c'. destruct post; try discriminate Hname.
    unfold author_initial. rewrite bind_run. cbn [get ret opt_get] in *.
    rewrite bind_run.
    destruct (opt_get (opt_get (own props "author") "node") "name");
      try discriminate Hname; reflexivity. }
  unfold PostCard, completes.
  repeat (rewrite bind_run;
          match goal with
          | |- context [author_initial charAt0 post ?c'] => idtac
          | |- context [match ?m ?c0 with _ => _ end] =>
              destruct (m c0) as [[? | ?] ?]; [| reflexivity]
          end).
  match goal with
  | |- context [author_initial charAt0 post ?c'] =>
      specialize (Hinit c'); unfold completes in Hinit;
      destruct (author_initial charAt0 post c') as [[? | ?] ?];
      [discriminate Hinit | reflexivity]
  end.
Qed.

End PageFacts.

(** ** Concrete runs of the further properties *)

Lemma params_for_nodes_with_gap :
  opt_get (opt_get (opt_get (some_nodes (VArr nodes_with_gap)) "data") "posts")
          "nodes" = VArr nodes_with_gap /\
  Detail.generateStaticParams (answer (some_nodes (VArr nodes_with_gap))) [] =
  (Normal (VArr [VObj [("slug", VStr "first-post")];
                 VObj [("slug", VUndefined)]]), []).
Proof.
  split; [reflexivity |].
  apply (static_params_follow_nodes
           (answer (some_nodes (VArr nodes_with_gap))) []
           (some_nodes (VArr nodes_with_gap)) nodes_with_gap);
    reflexivity.
Defined.

Lemma params_lost_for_nodes_with_null :
  existsb nullish nodes_with_null = true /\
  exists v,
    In v nodes_with_null /\ nullish v = true /\
    Detail.generateStaticParams (answer (some_nodes (VArr nodes_with_null))) [] =
    (Normal (VArr []),
     [] ++ [(ErrorLevel, [Text "[NextWP] Error fetching slugs for SSG:";
                          Caught (cannot_read v "slug")])]).
Proof.
  split; [reflexivity |].
  apply (static_params_lost_on_null_node
           (answer (some_nodes (VArr nodes_with_null))) []
           (some_nodes (VArr nodes_with_null)) nodes_with_null);
    reflexivity.
Defined.

Lemma getPosts_hands_on_a_string :
  nullish (opt_get (opt_get (some_nodes (VStr "not a list")) "data") "posts")
    = false /\
  Listing.getPosts (answer (some_nodes (VStr "not a list"))) [] =
  (Normal (VStr "not a list"), []).
Proof.
  split; [reflexivity |].
  apply (getPosts_passes_nodes_through
           (answer (some_nodes (VStr "not a list"))) []
           (some_nodes (VStr "not a list")));
    reflexivity.
Defined.

Lemma page_breaks_on_categories_without_nodes :
  opt_get post_without_category_nodes "date" = VStr "2024-01-01T00:00:00" /\
  BlogPost first_char date_as_written invalid_date
           (answer (one_post post_without_category_nodes)) "hello-world" [] =
  (Abrupt (cannot_read VUndefined "0"),
   snd (Detail.getPost (answer (one_post post_without_category_nodes))
                       "hello-world" [])).
Proof.
  split; [reflexivity |].
  exact (BlogPost_raises_iff_categories_without_nodes
           first_char date_as_written invalid_date
           (answer (one_post post_without_category_nodes)) "hello-world" []
           _ post_without_category_nodes "2024-01-01T00:00:00"
           eq_refl eq_refl).
Defined.

Lemma page_of_second_demo_item :
  find_by_slug "post-2" demo_store = Some (demo_item "2") /\
  exists c',
    BlogPost first_char date_as_written invalid_date (respond demo_store)
             "post-2" [] =
    (Normal (ArticlePage (item_article date_as_written (demo_item "2"))), c').
Proof.
  split; [reflexivity |].
  apply (BlogPost_renders_item first_char date_as_written invalid_date
           demo_store "post-2" (demo_item "2") []).
  reflexivity.
Defined.

Lemma enumerated_third_demo_slug_renders :
  In (VObj [("slug", VStr "post-3")]) (map slug_view demo_store) /\
  exists it c',
    In it demo_store /\ slug it = "post-3" /\
    BlogPost first_char date_as_written invalid_date (respond demo_store)
             "post-3" [] =
    (Normal (ArticlePage (item_article date_as_written it)), c').
Proof.
  split; [right; right; left; reflexivity |].
  apply (enumerated_slugs_render first_char date_as_written invalid_date
           demo_store [] [] [] (map slug_view demo_store) "post-3").
  - reflexivity.
  - right; right; left; reflexivity.
Defined.

Lemma pages_part_on_partial_success :
  truthy (opt_get dated_partial_success "errors") = true /\
  opt_get (opt_get (opt_get dated_partial_success "data") "post") "date"
    = VStr "2024-01-01T00:00:00" /\
  fst (BlogPost first_char date_as_written invalid_date
                (answer dated_partial_success) "hello-world" [])
    = Normal NotFoundPage /\
  exists a,
    DebugBlogPost first_char date_as_written invalid_date
                  (fun _ => graphql_errors_text) (fun _ => graphql_errors_text)
                  (answer dated_partial_success) "hello-world" [] =
    (Normal (DebugArticle a), []) /\
    art_title a = VStr "Hello world" /\
    art_html a = VStr "<p>Welcome.</p>" /\
    art_date a = date_as_written "2024-01-01T00:00:00" /\
    art_author a = VStr "admin".
Proof.
  split; [reflexivity |]. split; [reflexivity |].
  exact (pages_part_when_errors_accompany_post
           first_char date_as_written invalid_date
           (fun _ => graphql_errors_text) (fun _ => graphql_errors_text)
           (answer dated_partial_success) "hello-world" []
           dated_partial_success "2024-01-01T00:00:00"
           eq_refl eq_refl eq_refl eq_refl).
Defined.

Lemma listing_breaks_on_nodes_missing :
  nullish (opt_get (opt_get (opt_get nodes_missing "data") "posts") "nodes")
    = true /\
  Home object_text not_above_zero (answer nodes_missing) [] =
  (Abrupt (cannot_read VUndefined "length"), []).
Proof.
  split; [reflexivity |].
  apply (Home_raises_without_nodes object_text not_above_zero
           (answer nodes_missing) [] nodes_missing);
    reflexivity.
Defined.

Lemma listing_breaks_on_null_node :
  existsb nullish nodes_with_null = true /\
  completes (Home object_text not_above_zero
                  (answer (some_nodes (VArr nodes_with_null))) []) = false.
Proof.
  split; [reflexivity |].
  apply (Home_raises_on_null_node object_text not_above_zero
           (answer (some_nodes (VArr nodes_with_null))) []
           (some_nodes (VArr nodes_with_null)) nodes_with_null);
    reflexivity.
Defined.

Lemma card_breaks_on_numeric_author :
  text_or_absent
    (opt_get (opt_get (opt_get post_with_numeric_author "author") "node") "name")
    = false /\
  completes (PostCard first_char date_as_written invalid_date
                      post_with_numeric_author []) = false.
Proof.
  split; [reflexivity |].
  apply (PostCard_raises_on_non_string_name
           first_char date_as_written invalid_date
           post_with_numeric_author []).
  reflexivity.
Defined.
